(** * A shallow embedding of doma (src/src/doma/core.py, gpu.py, configs.py)

    The development models the wire protocol of [doma.core] (pickle plus an
    end-of-frame sentinel), the per-GPU controller of [doma.gpu]
    (snapshot ring buffer, start condition, the hold loop with its
    sleep-time binary search) and the group manager's listener loop.
    [doma.utils] and [doma.app] are not modelled: both import [PID_PATH]
    from [doma.core], which does not define it, so neither module can be
    imported.

    Python floats are modelled as rationals ([Q]), with the overflow to
    [inf] written out where the code converts a float to an [int]; byte
    strings as lists of [Z] holding values in [0, 255]; exceptions as an
    explicit error value. *)

From Stdlib Require Import List ZArith QArith Qround Qabs String Ascii Bool Lia Lqa.
Import ListNotations.

(* ------------------------------------------------------------------ *)
(** * Byte strings and the sentinel framing of [doma.core] *)

Module Core.

Local Open Scope Z_scope.

Definition bytes := list Z.

Definition bytes_of_string (s : string) : bytes :=
  map (fun c => Z.of_nat (nat_of_ascii c)) (list_ascii_of_string s).

Definition string_of_bytes (b : bytes) : string :=
  string_of_list_ascii (map (fun z => ascii_of_nat (Z.to_nat z)) b).

(** [prefixb p s]: [s] starts with [p]. *)
Fixpoint prefixb (p s : bytes) : bool :=
  match p, s with
  | [], _ => true
  | a :: p', b :: s' => Z.eqb a b && prefixb p' s'
  | _ :: _, [] => false
  end.

(** Index of the first occurrence of [p] in [s] (Python's [bytes.find]). *)
Fixpoint find_sub (p s : bytes) : option nat :=
  if prefixb p s then Some 0%nat
  else match s with
       | [] => None
       | _ :: s' => option_map S (find_sub p s')
       end.

(** [p in s] *)
Definition bytes_in (p s : bytes) : bool :=
  match find_sub p s with Some _ => true | None => false end.

(** [s.split(p)[0]]: everything before the first occurrence of [p]
    (the whole of [s] when [p] does not occur). *)
Definition split_first (p s : bytes) : bytes :=
  match find_sub p s with Some i => firstn i s | None => s end.

(** [EOS = b"END_OF_SOCKET_DATA"] *)
Definition EOS : bytes := bytes_of_string "END_OF_SOCKET_DATA".

(** The [while True] loop of [recv_socket_data]: each element of [chunks]
    is the result of one [conn.recv(1024)].  When the chunks are exhausted
    before the sentinel has been seen, the next [recv] either blocks (peer
    still connected, no timeout on the accepted connection) or returns
    [b""] forever (peer closed), and the loop never leaves: [RecvHang]. *)
Inductive recv_result := RecvFrame (b : bytes) | RecvHang.

Fixpoint recv_loop (bytes_buffer : bytes) (chunks : list bytes) : recv_result :=
  match chunks with
  | [] => RecvHang
  | data :: rest =>
      let bytes_buffer' := bytes_buffer ++ data in
      if bytes_in EOS bytes_buffer' then RecvFrame (split_first EOS bytes_buffer')
      else recv_loop bytes_buffer' rest
  end.

(** Signals, [class Signal(Enum)]. *)
Inductive Signal := START | STOP | RESTART | SHUTDOWN | GREETING.

Definition signal_value (s : Signal) : Z :=
  match s with START => 0 | STOP => 1 | RESTART => 2 | SHUTDOWN => 3 | GREETING => 4 end.

Definition signal_of_value (z : Z) : option Signal :=
  match z with
  | 0 => Some START | 1 => Some STOP | 2 => Some RESTART
  | 3 => Some SHUTDOWN | 4 => Some GREETING | _ => None
  end.

(** [class AlgorithmConfig(BaseModel)] *)
Record AlgorithmConfig := {
  operator_gb : Q;
  util_eps : Q;
  max_sleep_time : Q;
  min_sleep_time : Q;
  inspect_interval : Q;
  util_samples_num : Z
}.

(** [class ControllerConfig(BaseModel)]: [hold_mem] is a [float] field
    with default [40], not an optional one. *)
Record ControllerConfig := {
  wait_minutes : Q;
  mem_threshold : Q;
  hold_mem : Q;
  hold_util : Q;
  alg_config : AlgorithmConfig
}.

(** Exceptions that travel in the [error] field or end a handler. *)
Inductive ExcClass :=
  | RuntimeError | ValueError | FileExistsError | FileNotFoundError
  | TypeError | ZeroDivisionError | ValidationError | UnpicklingError
  | OverflowError | UnboundLocalError.

Record PyExc := { exc_class : ExcClass; exc_msg : string }.

(** [class SocketData(BaseModel)] after validation:
    [error: Optional[Exception]]. *)
Record SocketData := {
  sd_signal : Signal;
  sd_config : option ControllerConfig;
  sd_error : option PyExc
}.

(** ** [pickle.dumps] / [pickle.loads] on [SocketData]

    A model of the protocol-4 pickle stream of a [SocketData] value.
    Objects are written as GLOBAL (0x63) ["module\nname\n"], MARK (0x28),
    their fields, TUPLE (0x74), REDUCE (0x52); [None] as NONE (0x4e).
    Ints as [save_long] writes them: BININT1 (0x4b, one byte) for
    [0 <= n < 256], BININT2 (0x4d, 2 bytes) below [65536], BININT (0x4a,
    4 bytes little endian, signed) in 32 bits, and otherwise [encode_long]:
    the shortest little-endian two's complement, after LONG1 (0x8a, one
    length byte) when shorter than 256 bytes and LONG4 (0x8b, 4 length
    bytes) otherwise.  Strings as SHORT_BINUNICODE (0x8c, one length byte)
    up to 255 bytes, BINUNICODE (0x58, 4 length bytes) up to [2^32 - 1]
    bytes and BINUNICODE8 (0x8d, 8 length bytes) beyond, followed by the
    string's bytes verbatim.  A float field is written with BINFLOAT (0x47)
    followed by its payload, which this model (floats being rationals)
    takes as the exact value: numerator and denominator, each written as
    an int.  The stream starts with PROTO 4 and ends with STOP (0x2e);
    [pickle.loads] ignores what follows STOP. *)

Fixpoint le_bytes (k : nat) (z : Z) : bytes :=
  match k with
  | O => []
  | S k' => Z.land z 255 :: le_bytes k' (Z.shiftr z 8)
  end.

Fixpoint le_value (b : bytes) : Z :=
  match b with [] => 0 | x :: t => x + 256 * le_value t end.

Definition signed (bits : Z) (v : Z) : Z :=
  if v >=? 2 ^ (bits - 1) then v - 2 ^ bits else v.

Definition op_PROTO := 128.
Definition op_GLOBAL := 99.
Definition op_MARK := 40.
Definition op_TUPLE := 116.
Definition op_REDUCE := 82.
Definition op_NONE := 78.
Definition op_BININT1 := 75.
Definition op_BININT := 74.
Definition op_BININT2 := 77.
Definition op_LONG1 := 138.
Definition op_LONG4 := 139.
Definition op_BINUNICODE8 := 141.
Definition op_BINFLOAT := 71.
Definition op_SHORT_BINUNICODE := 140.
Definition op_BINUNICODE := 88.
Definition op_STOP := 46.

Definition pickle_global (modname name : string) : bytes :=
  op_GLOBAL :: bytes_of_string modname ++ [10] ++ bytes_of_string name ++ [10].

Definition pickle_object (modname name : string) (fields : list bytes) : bytes :=
  pickle_global modname name ++ [op_MARK] ++ List.concat fields ++ [op_TUPLE; op_REDUCE].

Definition pickle_str (s : string) : bytes :=
  let b := bytes_of_string s in
  let n := Z.of_nat (List.length b) in
  if n <? 256 then op_SHORT_BINUNICODE :: n :: b
  else if n <? 2 ^ 32 then op_BINUNICODE :: le_bytes 4 n ++ b
  else op_BINUNICODE8 :: le_bytes 8 n ++ b.

(** [int.bit_length()] *)
Definition bit_length (v : Z) : Z := if v =? 0 then 0 else Z.log2 v + 1.

(** Length of [encode_long(z)]: the fewest bytes holding [z] in two's
    complement. *)
Definition long_nbytes (z : Z) : Z :=
  bit_length (if 0 <=? z then z else - z - 1) / 8 + 1.

Definition pickle_int (z : Z) : bytes :=
  if (0 <=? z) && (z <? 256) then [op_BININT1; z]
  else if (0 <=? z) && (z <? 65536) then op_BININT2 :: le_bytes 2 z
  else if (- 2 ^ 31 <=? z) && (z <? 2 ^ 31) then op_BININT :: le_bytes 4 z
  else
    let n := long_nbytes z in
    if n <? 256 then op_LONG1 :: n :: le_bytes (Z.to_nat n) z
    else op_LONG4 :: le_bytes 4 n ++ le_bytes (Z.to_nat n) z.

Definition pickle_float (q : Q) : bytes :=
  op_BINFLOAT :: pickle_int (Qnum q) ++ pickle_int (Zpos (Qden q)).

Definition pickle_option {A} (f : A -> bytes) (o : option A) : bytes :=
  match o with None => [op_NONE] | Some a => f a end.

Definition pickle_signal (s : Signal) : bytes :=
  pickle_object "doma.core" "Signal" [[op_BININT1; signal_value s]].

Definition pickle_alg_config (a : AlgorithmConfig) : bytes :=
  pickle_object "doma.configs" "AlgorithmConfig"
    [pickle_float (operator_gb a); pickle_float (util_eps a);
     pickle_float (max_sleep_time a); pickle_float (min_sleep_time a);
     pickle_float (inspect_interval a); pickle_int (util_samples_num a)].

Definition pickle_config (c : ControllerConfig) : bytes :=
  pickle_object "doma.configs" "ControllerConfig"
    [pickle_float (wait_minutes c); pickle_float (mem_threshold c);
     pickle_float (hold_mem c); pickle_float (hold_util c);
     pickle_alg_config (alg_config c)].

Definition exc_global (c : ExcClass) : string * string :=
  match c with
  | RuntimeError => ("builtins"%string, "RuntimeError"%string)
  | ValueError => ("builtins"%string, "ValueError"%string)
  | FileExistsError => ("builtins"%string, "FileExistsError"%string)
  | FileNotFoundError => ("builtins"%string, "FileNotFoundError"%string)
  | TypeError => ("builtins"%string, "TypeError"%string)
  | ZeroDivisionError => ("builtins"%string, "ZeroDivisionError"%string)
  | ValidationError => ("pydantic_core._pydantic_core"%string, "ValidationError"%string)
  | UnpicklingError => ("_pickle"%string, "UnpicklingError"%string)
  | OverflowError => ("builtins"%string, "OverflowError"%string)
  | UnboundLocalError => ("builtins"%string, "UnboundLocalError"%string)
  end.

Definition pickle_exc (e : PyExc) : bytes :=
  pickle_object (fst (exc_global (exc_class e))) (snd (exc_global (exc_class e)))
    [pickle_str (exc_msg e)].

Definition pickle_dumps (d : SocketData) : bytes :=
  [op_PROTO; 4] ++
  pickle_object "doma.core" "SocketData"
    [pickle_signal (sd_signal d); pickle_option pickle_config (sd_config d);
     pickle_option pickle_exc (sd_error d)] ++
  [op_STOP].

(** The unpickler, as a parser in the option-state monad. *)
Definition parser (A : Type) := bytes -> option (A * bytes).

Definition ret {A} (a : A) : parser A := fun s => Some (a, s).
Definition fail {A} : parser A := fun _ => None.
Definition bind {A B} (m : parser A) (k : A -> parser B) : parser B :=
  fun s => match m s with Some (a, s') => k a s' | None => None end.

Notation "x <- m ;; k" := (bind m (fun x => k))
  (at level 61, m at next level, right associativity).

Definition expect (p : bytes) : parser unit :=
  fun s => if prefixb p s then Some (tt, skipn (List.length p) s) else None.

Definition take (n : nat) : parser bytes :=
  fun s => if (n <=? List.length s)%nat then Some (firstn n s, skipn n s) else None.

Definition byte : parser Z :=
  fun s => match s with x :: t => Some (x, t) | [] => None end.

Definition orelse {A} (p1 p2 : parser A) : parser A :=
  fun s => match p1 s with Some r => Some r | None => p2 s end.

Definition object_begin (modname name : string) : parser unit :=
  expect (pickle_global modname name ++ [op_MARK]).

Definition object_end : parser unit := expect [op_TUPLE; op_REDUCE].

Definition unpickle_str : parser string :=
  op <- byte ;;
  if op =? op_SHORT_BINUNICODE then
    n <- byte ;; b <- take (Z.to_nat n) ;; ret (string_of_bytes b)
  else if op =? op_BINUNICODE then
    nb <- take 4 ;; b <- take (Z.to_nat (le_value nb)) ;; ret (string_of_bytes b)
  else if op =? op_BINUNICODE8 then
    nb <- take 8 ;; b <- take (Z.to_nat (le_value nb)) ;; ret (string_of_bytes b)
  else fail.

(** [decode_long]: little-endian two's complement, [0] for no bytes. *)
Definition decode_long (b : bytes) : Z :=
  match b with
  | [] => 0
  | _ => signed (8 * Z.of_nat (List.length b)) (le_value b)
  end.

Definition unpickle_int : parser Z :=
  op <- byte ;;
  if op =? op_BININT1 then byte
  else if op =? op_BININT2 then b <- take 2 ;; ret (le_value b)
  else if op =? op_BININT then b <- take 4 ;; ret (signed 32 (le_value b))
  else if op =? op_LONG1 then
    n <- byte ;; b <- take (Z.to_nat n) ;; ret (decode_long b)
  else if op =? op_LONG4 then
    nb <- take 4 ;;
    let n := signed 32 (le_value nb) in
    if n <? 0 then fail else b <- take (Z.to_nat n) ;; ret (decode_long b)
  else fail.

Definition unpickle_float : parser Q :=
  _ <- expect [op_BINFLOAT] ;;
  n <- unpickle_int ;; d <- unpickle_int ;;
  match d with
  | Zpos p => ret (Qmake n p)
  | _ => fail
  end.

Definition unpickle_option {A} (p : parser A) : parser (option A) :=
  orelse (_ <- expect [op_NONE] ;; ret None) (a <- p ;; ret (Some a)).

Definition unpickle_signal : parser Signal :=
  _ <- object_begin "doma.core" "Signal" ;;
  _ <- expect [op_BININT1] ;; v <- byte ;;
  _ <- object_end ;;
  match signal_of_value v with Some s => ret s | None => fail end.

Definition unpickle_alg_config : parser AlgorithmConfig :=
  _ <- object_begin "doma.configs" "AlgorithmConfig" ;;
  a1 <- unpickle_float ;; a2 <- unpickle_float ;; a3 <- unpickle_float ;;
  a4 <- unpickle_float ;; a5 <- unpickle_float ;; a6 <- unpickle_int ;;
  _ <- object_end ;;
  ret {| operator_gb := a1; util_eps := a2; max_sleep_time := a3;
         min_sleep_time := a4; inspect_interval := a5; util_samples_num := a6 |}.

Definition unpickle_config : parser ControllerConfig :=
  _ <- object_begin "doma.configs" "ControllerConfig" ;;
  c1 <- unpickle_float ;; c2 <- unpickle_float ;; c3 <- unpickle_float ;;
  c4 <- unpickle_float ;; c5 <- unpickle_alg_config ;;
  _ <- object_end ;;
  ret {| wait_minutes := c1; mem_threshold := c2; hold_mem := c3;
         hold_util := c4; alg_config := c5 |}.

Definition unpickle_exc_of (c : ExcClass) : parser PyExc :=
  _ <- object_begin (fst (exc_global c)) (snd (exc_global c)) ;;
  m <- unpickle_str ;; _ <- object_end ;;
  ret {| exc_class := c; exc_msg := m |}.

Definition unpickle_exc : parser PyExc :=
  orelse (unpickle_exc_of RuntimeError)
  (orelse (unpickle_exc_of ValueError)
  (orelse (unpickle_exc_of FileExistsError)
  (orelse (unpickle_exc_of FileNotFoundError)
  (orelse (unpickle_exc_of TypeError)
  (orelse (unpickle_exc_of ZeroDivisionError)
  (orelse (unpickle_exc_of ValidationError)
  (orelse (unpickle_exc_of UnpicklingError)
  (orelse (unpickle_exc_of OverflowError) (unpickle_exc_of UnboundLocalError))))))))).

Definition unpickle_socket_data : parser SocketData :=
  _ <- expect [op_PROTO; 4] ;;
  _ <- object_begin "doma.core" "SocketData" ;;
  s <- unpickle_signal ;;
  c <- unpickle_option unpickle_config ;;
  e <- unpickle_option unpickle_exc ;;
  _ <- object_end ;; _ <- expect [op_STOP] ;;
  ret {| sd_signal := s; sd_config := c; sd_error := e |}.

(** [pickle.loads]: [None] stands for a raised [UnpicklingError]. *)
Definition pickle_loads (b : bytes) : option SocketData :=
  match unpickle_socket_data b with Some (d, _) => Some d | None => None end.

(** When [pickle.dumps] succeeds.  [save_long] raises [OverflowError("int
    too large to pickle")] for an int whose encoding takes [2^31] bytes or
    more (LONG4's length is a signed 32-bit int); the length of BINUNICODE8
    has 8 bytes, more than any [str] can need.  A Python float, its
    numerator below [2^1024] and its denominator at most [2^1074], always
    passes [int_picklable]. *)
Definition int_picklable (z : Z) : bool := long_nbytes z <? 2 ^ 31.

Definition float_picklable (q : Q) : bool :=
  int_picklable (Qnum q) && int_picklable (Zpos (Qden q)).

Definition str_picklable (s : string) : bool :=
  Z.of_nat (List.length (bytes_of_string s)) <? 2 ^ 64.

Definition alg_config_picklable (a : AlgorithmConfig) : bool :=
  float_picklable (operator_gb a) && float_picklable (util_eps a) &&
  float_picklable (max_sleep_time a) && float_picklable (min_sleep_time a) &&
  float_picklable (inspect_interval a) && int_picklable (util_samples_num a).

Definition config_picklable (c : ControllerConfig) : bool :=
  float_picklable (wait_minutes c) && float_picklable (mem_threshold c) &&
  float_picklable (hold_mem c) && float_picklable (hold_util c) &&
  alg_config_picklable (alg_config c).

Definition picklable (d : SocketData) : bool :=
  match sd_config d with Some c => config_picklable c | None => true end &&
  match sd_error d with Some e => str_picklable (exc_msg e) | None => true end.

(** Outcome of a Python call that may raise or never return. *)
Inductive outcome (A : Type) :=
  | Ok (a : A)
  | Raise (e : PyExc)
  | Hang.
Arguments Ok {A} a.
Arguments Raise {A} e.
Arguments Hang {A}.

(** [recv_socket_data(conn)] on the accepted connection [conn], whose
    successive [recv(1024)] results are [chunks]. *)
Definition recv_socket_data (chunks : list bytes) : outcome SocketData :=
  match recv_loop [] chunks with
  | RecvHang => Hang
  | RecvFrame b =>
      match pickle_loads b with
      | Some d => Ok d
      | None => Raise {| exc_class := UnpicklingError; exc_msg := "pickle data was truncated" |}
      end
  end.

(** [send_socket_data(conn, data)]: the bytes written to the connection
    (when [picklable data]; [pickle.dumps] raises otherwise, which never
    happens to the replies of the listener, having no [config]). *)
Definition send_socket_data (d : SocketData) : bytes := pickle_dumps d ++ EOS.

Definition exc (c : ExcClass) (msg : string) : PyExc :=
  {| exc_class := c; exc_msg := msg |}.

(** The value handed to the [error] argument of [SocketData(...)]. *)
Inductive py_error_arg := ErrNone | ErrStr (s : string) | ErrExc (e : PyExc).

(** [SocketData(signal=..., config=..., error=...)]: pydantic validates the
    [error: Optional[Exception]] field of an [arbitrary_types_allowed]
    model with an [isinstance(value, Exception)] check, so a [str] is
    rejected with a [ValidationError]. *)
Definition make_socket_data (sig : Signal) (cfg : option ControllerConfig)
    (err : py_error_arg) : outcome SocketData :=
  match err with
  | ErrNone => Ok {| sd_signal := sig; sd_config := cfg; sd_error := None |}
  | ErrExc e => Ok {| sd_signal := sig; sd_config := cfg; sd_error := Some e |}
  | ErrStr _ => Raise (exc ValidationError
      "1 validation error for SocketData error: Input should be an instance of Exception")
  end.

End Core.


(* ------------------------------------------------------------------ *)
(** * [GPUController] (gpu.py) *)

Module Controller.
Import Core.
Local Open Scope Q_scope.

(** [int(x)] on a finite Python float: truncation toward zero. *)
Definition py_int (q : Q) : Z :=
  if Qle_bool 0 q then Qfloor q else (- Qfloor (- q))%Z.

Definition Qltb (a b : Q) : bool := negb (Qle_bool b a).

(** A float operation whose exact result [x] is at least [2^1024 - 2^970]
    in magnitude (half an ulp above the largest float) rounds to [inf]. *)
Definition float_overflows (x : Q) : bool :=
  Qle_bool (inject_Z (2 ^ 1024 - 2 ^ 970)) (Qabs x).

(** [compute_storage_size(gb)]: number of doubles in [gb] gigabytes.  For
    a float [gb], [gb * 1024 * 1024 * 1024] is exact (a product by powers
    of two) unless it overflows to [inf], and so is [/ 8]; [int(inf)]
    raises [OverflowError]. *)
Definition compute_storage_size (gb : Q) : outcome Z :=
  let x := gb * inject_Z (1024 * 1024 * 1024) in
  if float_overflows x then Raise (exc OverflowError "cannot convert float infinity to integer")
  else Ok (py_int (x / 8)).

(** [@dataclass GPUSnapshot] *)
Record GPUSnapshot := { used_mem : Q; free_mem : Q; util : Q }.

(** [collections.deque(maxlen=n)]: appending to a full deque drops its
    oldest element (with [maxlen=0] nothing is ever kept). *)
Record Deque (A : Type) := { dq_items : list A; dq_maxlen : nat }.
Arguments dq_items {A} d.
Arguments dq_maxlen {A} d.

Definition deque_append {A} (d : Deque A) (x : A) : Deque A :=
  let l := dq_items d ++ [x] in
  {| dq_items := skipn (List.length l - dq_maxlen d) l; dq_maxlen := dq_maxlen d |}.

Definition deque_clear {A} (d : Deque A) : Deque A :=
  {| dq_items := []; dq_maxlen := dq_maxlen d |}.

(** Capacity of the history: [int(config.wait_minutes * 60)], when
    [history_maxlen_error] is [None]. *)
Definition history_maxlen (cfg : ControllerConfig) : nat :=
  Z.to_nat (py_int (wait_minutes cfg * 60)).

(** [deque(maxlen=int(config.wait_minutes * 60))] in [GPUController.__init__]:
    the product rounds to [inf] past the largest float, and [int(inf)]
    raises; a finite product rounds to [2^63] or more from [2^63 - 2^9] on
    (and below [-2^63] under [-2^63 - 2^10]), out of a C [Py_ssize_t]; a
    negative [maxlen] is refused. *)
Definition history_maxlen_error (cfg : ControllerConfig) : option PyExc :=
  let x := wait_minutes cfg * 60 in
  if float_overflows x then Some (exc OverflowError "cannot convert float infinity to integer")
  else if Qle_bool (inject_Z (2 ^ 63 - 2 ^ 9)) x || Qltb x (inject_Z (- 2 ^ 63 - 2 ^ 10)) then
    Some (exc OverflowError "Python int too large to convert to C ssize_t")
  else if (py_int x <? 0)%Z then Some (exc ValueError "maxlen must be non-negative")
  else None.

(** The fields of a controller the manager reads or writes.
    [holding_executor] records whether [self.holding_executor] is a
    thread (not [None]). *)
Record GPUController := {
  ctl_id : nat;
  ctl_config : ControllerConfig;
  gpu_snapshot_queue : Deque GPUSnapshot;
  holding : bool;
  holding_executor : bool;
  inspect_stop_signal : bool
}.

Definition new_controller (cfg : ControllerConfig) (id : nat) : GPUController :=
  {| ctl_id := id; ctl_config := cfg;
     gpu_snapshot_queue := {| dq_items := []; dq_maxlen := history_maxlen cfg |};
     holding := false; holding_executor := false; inspect_stop_signal := false |}.

Definition set_queue (c : GPUController) (q : Deque GPUSnapshot) : GPUController :=
  {| ctl_id := ctl_id c; ctl_config := ctl_config c; gpu_snapshot_queue := q;
     holding := holding c; holding_executor := holding_executor c;
     inspect_stop_signal := inspect_stop_signal c |}.

Definition set_holding (c : GPUController) (b : bool) : GPUController :=
  {| ctl_id := ctl_id c; ctl_config := ctl_config c;
     gpu_snapshot_queue := gpu_snapshot_queue c;
     holding := b; holding_executor := b;
     inspect_stop_signal := inspect_stop_signal c |}.

Definition set_inspect_stop (c : GPUController) : GPUController :=
  {| ctl_id := ctl_id c; ctl_config := ctl_config c;
     gpu_snapshot_queue := gpu_snapshot_queue c;
     holding := holding c; holding_executor := holding_executor c;
     inspect_stop_signal := true |}.

(** One iteration of [inspect]: append a snapshot (while not stopped). *)
Definition inspect_step (c : GPUController) (s : GPUSnapshot) : GPUController :=
  if inspect_stop_signal c then c
  else set_queue c (deque_append (gpu_snapshot_queue c) s).

Definition reset_history (c : GPUController) : GPUController :=
  set_queue c (deque_clear (gpu_snapshot_queue c)).

Definition is_history_full (c : GPUController) : bool :=
  Nat.eqb (List.length (dq_items (gpu_snapshot_queue c))) (dq_maxlen (gpu_snapshot_queue c)).

(** Python's [max(metrics)]: the first maximal element; [ValueError] on an
    empty sequence. *)
Definition py_max (l : list Q) : outcome Q :=
  match l with
  | [] => Raise (exc ValueError "max() iterable argument is empty")
  | x :: t => Ok (fold_left (fun m y => if Qltb m y then y else m) t x)
  end.

(** [get_history_metric("used_mem", "max")] *)
Definition history_max_used_mem (c : GPUController) : outcome Q :=
  py_max (map used_mem (dq_items (gpu_snapshot_queue c))).

(** [start_holding] / [stop_holding]; the hold thread itself is modelled
    by [hold_run] below. *)
Definition start_holding (c : GPUController) : outcome GPUController :=
  if holding_executor c then Raise (exc RuntimeError "GPUHolder is already running")
  else Ok (set_holding c true).

Definition stop_holding (c : GPUController) : outcome GPUController :=
  if negb (holding_executor c) then Raise (exc RuntimeError "GPUHolder is not running")
  else Ok (set_holding c false).

(** ** The hold loop, [GPUController.hold] *)

(** Target footprint: [gb = self.config.hold_mem; if gb is None: gb =
    self.get_mem_total() * 0.5]. *)
Definition hold_target (hold_mem_value : option Q) (mem_total : Q) : Q :=
  match hold_mem_value with
  | Some gb => gb
  | None => mem_total * (1 # 2)
  end.

(** Local variables of [hold] that survive an iteration. *)
Record HoldState := {
  hs_first : bool;
  hs_min_sleep_time : Q;
  hs_mid_sleep_time : Q;
  hs_max_sleep_time : Q;
  hs_find_target_sleep_time : bool;
  hs_util_samples : list Q;
  hs_tic : Q;
  hs_holder_size : option Z
}.

(** What one iteration reads from the outside world: [stop_signal.is_set()]
    at the loop head, the value of [time()] for [toc] and for a new [tic],
    [get_util()] and [get_mem_used()]. *)
Record HoldInput := {
  in_stop : bool;
  in_toc : Q;
  in_tic : Q;
  in_util : Q;
  in_mem_used : Q
}.

(** Observable actions of an iteration. *)
Inductive HoldEvent :=
  | EvMemUsedRead
  | EvHolderAlloc (size : Z)
  | EvUtilRead
  | EvSleep (t : Q).

Definition hold_init (alg : AlgorithmConfig) (t0 : Q) : HoldState :=
  {| hs_first := true;
     hs_min_sleep_time := min_sleep_time alg;
     hs_mid_sleep_time := (max_sleep_time alg + min_sleep_time alg) / 2;
     hs_max_sleep_time := max_sleep_time alg;
     hs_find_target_sleep_time := false;
     hs_util_samples := [];
     hs_tic := t0;
     hs_holder_size := None |}.

Definition Qsum (l : list Q) : Q := fold_left Qplus l 0.

(** The body of [while not self.stop_signal.is_set():] (after the check).
    The [ValueError] message is the f-string of the source with its
    interpolated numbers left out.  [gb - used_gb] is taken exact: the
    float subtraction rounds it but keeps its sign, so the [ValueError]
    test is the same, while the holder size can move by the rounding.
    [torch.mul] and [torch.randn] are assumed to succeed. *)
Definition hold_iter (alg : AlgorithmConfig) (gb target_util : Q)
    (st : HoldState) (i : HoldInput) : outcome (HoldState * list HoldEvent) :=
  if hs_first st then
    let used_gb := in_mem_used i in
    let holder_gb := gb - used_gb in
    if Qltb holder_gb 0 then
      Raise (exc ValueError "Target GB is less than used GB. Please reduce the operator GB.")
    else
      match compute_storage_size holder_gb with
      | Ok holder_size =>
          Ok ({| hs_first := false;
                 hs_min_sleep_time := hs_min_sleep_time st;
                 hs_mid_sleep_time := hs_mid_sleep_time st;
                 hs_max_sleep_time := hs_max_sleep_time st;
                 hs_find_target_sleep_time := hs_find_target_sleep_time st;
                 hs_util_samples := hs_util_samples st;
                 hs_tic := in_tic i;
                 hs_holder_size := Some holder_size |},
              [EvMemUsedRead; EvHolderAlloc holder_size])
      | Raise e => Raise e
      | Hang => Hang
      end
  else
    let toc := in_toc i in
    let mid := hs_mid_sleep_time st in
    if negb (hs_find_target_sleep_time st) && Qle_bool (inspect_interval alg) (toc - hs_tic st) then
      if (Z.of_nat (List.length (hs_util_samples st)) <? util_samples_num alg)%Z then
        Ok ({| hs_first := false;
               hs_min_sleep_time := hs_min_sleep_time st;
               hs_mid_sleep_time := mid;
               hs_max_sleep_time := hs_max_sleep_time st;
               hs_find_target_sleep_time := false;
               hs_util_samples := hs_util_samples st ++ [in_util i];
               hs_tic := in_tic i;
               hs_holder_size := hs_holder_size st |},
            [EvUtilRead; EvSleep mid])
      else if (util_samples_num alg =? 0)%Z then
        Raise (exc ZeroDivisionError "division by zero")
      else
        let cur_util := Qsum (hs_util_samples st) / inject_Z (util_samples_num alg) in
        if Qle_bool (Qabs (cur_util - target_util)) (util_eps alg) then
          Ok ({| hs_first := false;
                 hs_min_sleep_time := hs_min_sleep_time st;
                 hs_mid_sleep_time := mid;
                 hs_max_sleep_time := hs_max_sleep_time st;
                 hs_find_target_sleep_time := true;
                 hs_util_samples := [];
                 hs_tic := hs_tic st;
                 hs_holder_size := hs_holder_size st |}, [])
        else
          let max' := if Qltb cur_util target_util then mid else hs_max_sleep_time st in
          let min' := if Qltb cur_util target_util then hs_min_sleep_time st
                      else if Qltb target_util cur_util then mid
                      else hs_min_sleep_time st in
          let mid' := (max' + min') / 2 in
          Ok ({| hs_first := false;
                 hs_min_sleep_time := min';
                 hs_mid_sleep_time := mid';
                 hs_max_sleep_time := max';
                 hs_find_target_sleep_time := false;
                 hs_util_samples := [];
                 hs_tic := in_tic i;
                 hs_holder_size := hs_holder_size st |},
              [EvSleep mid'])
    else Ok (st, [EvSleep mid]).

(** How a run of the hold thread ends (or is still going when the inputs
    run out). *)
Inductive hold_result :=
  | HoldRaised (e : PyExc) (trace : list HoldEvent)
  | HoldStopped (st : HoldState) (trace : list HoldEvent)
  | HoldRunning (st : HoldState) (trace : list HoldEvent).

Definition hold_prepend (ev : list HoldEvent) (r : hold_result) : hold_result :=
  match r with
  | HoldRaised e tr => HoldRaised e (ev ++ tr)
  | HoldStopped st tr => HoldStopped st (ev ++ tr)
  | HoldRunning st tr => HoldRunning st (ev ++ tr)
  end.

(** The loop, then the clean-up after it.  [result] is first bound by the
    first iteration ([result = torch.mul(operator, operator)]), so a stop
    seen before any iteration ([hs_first] still set) makes
    [if result is not None] raise [UnboundLocalError]. *)
Fixpoint hold_run (alg : AlgorithmConfig) (gb target_util : Q)
    (st : HoldState) (inputs : list HoldInput) : hold_result :=
  match inputs with
  | [] => HoldRunning st []
  | i :: rest =>
      if in_stop i then
        if hs_first st then
          HoldRaised (exc UnboundLocalError
            "cannot access local variable 'result' where it is not associated with a value") []
        else HoldStopped st []
      else match hold_iter alg gb target_util st i with
           | Raise e => HoldRaised e []
           | Hang => HoldRunning st []
           | Ok (st', ev) => hold_prepend ev (hold_run alg gb target_util st' rest)
           end
  end.

(** [GPUController.hold]: [self.config.hold_mem] is a float, handed to
    [hold_target] as a present value.  The operator tensor allocated before
    the loop ([int(compute_storage_size(operator_gb) / 2)] doubles) is
    assumed to succeed: an [operator_gb] of [2^994] or more would make it
    raise [OverflowError] before the loop. *)
Definition hold (cfg : ControllerConfig) (mem_total t0 : Q) (inputs : list HoldInput)
    : hold_result :=
  let gb := hold_target (Some (hold_mem cfg)) mem_total in
  hold_run (alg_config cfg) gb (hold_util cfg) (hold_init (alg_config cfg) t0) inputs.



(** The value a caller supplies for the [hold_mem] field of
    [ControllerConfig]. *)
Inductive py_field := FieldAbsent | FieldNone | FieldNumber (q : Q).

(** Pydantic's validation of [hold_mem: float = Field(default=40, gt=0)]. *)
Definition validate_hold_mem (v : py_field) : outcome Q :=
  match v with
  | FieldAbsent => Ok 40
  | FieldNone => Raise (exc ValidationError "hold_mem: Input should be a valid number")
  | FieldNumber q =>
      if Qltb 0 q then Ok q
      else Raise (exc ValidationError "hold_mem: Input should be greater than 0")
  end.

End Controller.


(* ------------------------------------------------------------------ *)
(** * [GPUGroupManager] (gpu.py) *)

Module Manager.
Import Core Controller.

(** The manager's fields; [running_thread] records whether
    [self.running_thread] is a thread (not [None]), [loop_alive] whether
    that thread is still inside [_controllers_loop] (it dies when the loop
    body raises).  [listener_open] and [address_exists] describe the
    listening socket and its file. *)
Record Manager := {
  mgr_config : ControllerConfig;
  running_signal : bool;
  running_thread : bool;
  loop_alive : bool;
  gpu_controllers : option (list GPUController);
  device_count : nat;
  listener_open : bool;
  address_exists : bool
}.

Definition with_config (m : Manager) (c : ControllerConfig) : Manager :=
  {| mgr_config := c; running_signal := running_signal m;
     running_thread := running_thread m; loop_alive := loop_alive m;
     gpu_controllers := gpu_controllers m; device_count := device_count m;
     listener_open := listener_open m; address_exists := address_exists m |}.

Definition with_running (m : Manager) (sig thr alive : bool) : Manager :=
  {| mgr_config := mgr_config m; running_signal := sig;
     running_thread := thr; loop_alive := alive;
     gpu_controllers := gpu_controllers m; device_count := device_count m;
     listener_open := listener_open m; address_exists := address_exists m |}.

Definition with_controllers (m : Manager) (cs : option (list GPUController)) : Manager :=
  {| mgr_config := mgr_config m; running_signal := running_signal m;
     running_thread := running_thread m; loop_alive := loop_alive m;
     gpu_controllers := cs; device_count := device_count m;
     listener_open := listener_open m; address_exists := address_exists m |}.

Definition with_socket (m : Manager) (opened exists_ : bool) : Manager :=
  {| mgr_config := mgr_config m; running_signal := running_signal m;
     running_thread := running_thread m; loop_alive := loop_alive m;
     gpu_controllers := gpu_controllers m; device_count := device_count m;
     listener_open := opened; address_exists := exists_ |}.

(** [GPUGroupManager.__init__] with [launch_socket]; [already_exists] is
    [os.path.exists(self.server_address)]. *)
Definition manager_init (cfg : ControllerConfig) (devices : nat) (already_exists : bool)
    : outcome Manager :=
  if already_exists then
    Raise (exc FileExistsError "Socket file already exists. doma may be already running or the previous instance is not shutdown properly.")
  else Ok {| mgr_config := cfg; running_signal := false; running_thread := false;
             loop_alive := false; gpu_controllers := None; device_count := devices;
             listener_open := true; address_exists := true |}.

(** [_validate_controller_start_condition] *)
Definition validate_controller_start_condition (cfg : ControllerConfig) (c : GPUController)
    : outcome bool :=
  if is_history_full c then
    if negb (holding c) then
      match history_max_used_mem c with
      | Ok mx => Ok (Qltb mx (mem_threshold cfg))
      | Raise e => Raise e
      | Hang => Hang
      end
    else Ok false
  else Ok false.

(** One pass of [for controller in self.gpu_controllers:] in the body of
    [_controllers_loop]; an exception ends the pass (and the thread). *)
Fixpoint tick_controllers (cfg : ControllerConfig) (cs : list GPUController)
    : list GPUController * option PyExc :=
  match cs with
  | [] => ([], None)
  | c :: rest =>
      match validate_controller_start_condition cfg c with
      | Ok true =>
          match start_holding c with
          | Ok c' => let (rest', e) := tick_controllers cfg rest in (c' :: rest', e)
          | Raise e => (c :: rest, Some e)
          | Hang => (c :: rest, None)
          end
      | Ok false => let (rest', e) := tick_controllers cfg rest in (c :: rest', e)
      | Raise e => (c :: rest, Some e)
      | Hang => (c :: rest, None)
      end
  end.

(** The clean-up after [while self.running_signal.is_set()] in
    [_controllers_loop]. *)
Fixpoint loop_cleanup (cs : list GPUController) : list GPUController * option PyExc :=
  match cs with
  | [] => ([], None)
  | c :: rest =>
      match (if holding c then stop_holding c else Ok c) with
      | Ok c' => let (rest', e) := loop_cleanup rest in (set_inspect_stop c' :: rest', e)
      | Raise e => (c :: rest, Some e)
      | Hang => (c :: rest, None)
      end
  end.

(** One iteration of [_controllers_loop] (run by the controllers thread
    while [running_signal] is set). *)
Definition controllers_tick (m : Manager) : Manager :=
  if running_signal m && loop_alive m then
    match gpu_controllers m with
    | Some cs =>
        let (cs', e) := tick_controllers (mgr_config m) cs in
        let m' := with_controllers m (Some cs') in
        match e with
        | None => m'
        | Some _ => with_running m' (running_signal m) (running_thread m) false
        end
    | None => with_running m (running_signal m) (running_thread m) false
    end
  else m.

(** [stop_controllers]: clear the signal and join the thread, which runs
    the clean-up if it is still alive. *)
Definition stop_controllers (m : Manager) : outcome Manager :=
  if negb (running_thread m) then
    Raise (exc RuntimeError "Controllers are not running. Please start them first.")
  else
    let cs' :=
      if loop_alive m then
        match gpu_controllers m with
        | Some cs => Some (fst (loop_cleanup cs))
        | None => None
        end
      else gpu_controllers m in
    Ok (with_running (with_controllers m cs') false false false).

(** [start_controllers]; the new thread first resets every history. *)
Definition start_controllers (m : Manager) : outcome Manager :=
  if running_thread m then
    Raise (exc RuntimeError "Controllers are already running. Please stop them first.")
  else
    match gpu_controllers m with
    | Some cs => Ok (with_controllers (with_running m true true true) (Some (map reset_history cs)))
    | None => Ok (with_running m true true false)
    end.

(** A call that changes the manager and may raise after changing it. *)
Inductive mstep :=
  | MOk (m : Manager)
  | MRaised (m : Manager) (e : PyExc)
  | MHang.

(** [reset_controllers]: [GPUController(i, self.config)] for each device;
    the first construction raises when its [deque] does, leaving
    [self.gpu_controllers] as it was. *)
Definition reset_controllers (m : Manager) : mstep :=
  match (if running_signal m then stop_controllers m else Ok m) with
  | Ok m' =>
      match device_count m', history_maxlen_error (mgr_config m') with
      | S _, Some e => MRaised m' e
      | _, _ => MOk (with_controllers m'
                       (Some (map (new_controller (mgr_config m')) (seq 0 (device_count m')))))
      end
  | Raise e => MRaised m e
  | Hang => MHang
  end.

(** [update_config] *)
Definition update_config (m : Manager) (c : option ControllerConfig) : Manager :=
  match c with Some c' => with_config m c' | None => m end.

(** Activity outside the listener thread: an iteration of the controllers
    loop, a sample taken by the [inspect] thread of controller [k], or the
    socket file vanishing. *)
Inductive Background :=
  | BgTick
  | BgSample (k : nat) (s : GPUSnapshot)
  | BgAddressRemoved.

Definition background (b : Background) (m : Manager) : Manager :=
  match b with
  | BgTick => controllers_tick m
  | BgSample k s =>
      match gpu_controllers m with
      | Some cs =>
          with_controllers m
            (Some (map (fun c => if Nat.eqb (ctl_id c) k then inspect_step c s else c) cs))
      | None => m
      end
  | BgAddressRemoved => with_socket m (listener_open m) false
  end.

(** The [try:] block of [listen_signal]: the manager as far as the handler
    got, the new value of [run], and the exception it raised. *)
Inductive dispatch_result :=
  | DispatchOk (m : Manager) (run : bool)
  | DispatchError (m : Manager) (e : PyExc)
  | DispatchHang.

Definition start_like (cfg : option ControllerConfig) (m : Manager) : dispatch_result :=
  let m1 := update_config m cfg in
  match reset_controllers m1 with
  | MOk m2 =>
      match start_controllers m2 with
      | Ok m3 => DispatchOk m3 true
      | Raise e => DispatchError m2 e
      | Hang => DispatchHang
      end
  | MRaised m2 e => DispatchError m2 e
  | MHang => DispatchHang
  end.

Definition dispatch (sig : Signal) (cfg : option ControllerConfig) (m : Manager)
    : dispatch_result :=
  match sig with
  | START => start_like cfg m
  | STOP =>
      match stop_controllers m with
      | Ok m' => DispatchOk m' true
      | Raise e => DispatchError m e
      | Hang => DispatchHang
      end
  | RESTART => start_like cfg m
  | SHUTDOWN =>
      if running_thread m then
        match stop_controllers m with
        | Ok m' => DispatchOk m' false
        | Raise e => DispatchError m e
        | Hang => DispatchHang
        end
      else DispatchOk m false
  | GREETING => DispatchOk m true
  end.

(** What the listener does on the outside. *)
Inductive ListenEvent :=
  | Sent (b : bytes)
  | ConnClosed
  | ListenerClosed
  | AddressRemoved.

Inductive conn_result :=
  | ConnDone (tr : list ListenEvent) (m : Manager) (run : bool)
  | ConnRaised (tr : list ListenEvent) (m : Manager) (e : PyExc)
  | ConnHang (m : Manager).

(** The [with conn:] block of [listen_signal]: receive, dispatch, reply
    with [SocketData(signal=Signal.GREETING, error=error)] where
    [error = str(e)]; leaving the block, normally or by an exception,
    closes the connection. *)
Definition handle_conn (chunks : list bytes) (m : Manager) : conn_result :=
  match recv_socket_data chunks with
  | Hang => ConnHang m
  | Raise e => ConnRaised [ConnClosed] m e
  | Ok d =>
      let reply (m' : Manager) (run' : bool) (err : py_error_arg) :=
        match make_socket_data GREETING None err with
        | Ok resp => ConnDone [Sent (send_socket_data resp); ConnClosed] m' run'
        | Raise e => ConnRaised [ConnClosed] m' e
        | Hang => ConnHang m'
        end in
      match dispatch (sd_signal d) (sd_config d) m with
      | DispatchOk m' run' => reply m' run' ErrNone
      | DispatchError m' e => reply m' true (ErrStr (exc_msg e))
      | DispatchHang => ConnHang m
      end
  end.

(** What [accept] yields in one iteration of the listener loop, or
    activity of the other threads in between. *)
Inductive ListenInput :=
  | InTimeout
  | InConn (chunks : list bytes)
  | InBackground (b : Background).

Inductive listen_outcome :=
  | ListenReturned (m : Manager)
  | ListenRaised (m : Manager) (e : PyExc)
  | ListenHang (m : Manager)
  | ListenWaiting (m : Manager).

(** After the loop: [self.socket.close(); os.remove(self.server_address)]. *)
Definition listen_finish (m : Manager) : list ListenEvent * listen_outcome :=
  if address_exists m then
    ([ListenerClosed; AddressRemoved], ListenReturned (with_socket m false false))
  else
    ([ListenerClosed],
     ListenRaised (with_socket m false false) (exc FileNotFoundError "No such file or directory")).

(** [while run and self.test_address_alive(): ...]; [ListenWaiting] when the
    inputs run out while the loop is still waiting in [accept]. *)
Fixpoint listen_loop (inputs : list ListenInput) (m : Manager) (run : bool)
    : list ListenEvent * listen_outcome :=
  if negb (run && address_exists m) then listen_finish m
  else
    match inputs with
    | [] => ([], ListenWaiting m)
    | InTimeout :: rest => listen_loop rest m run
    | InBackground b :: rest => listen_loop rest (background b m) run
    | InConn chunks :: rest =>
        match handle_conn chunks m with
        | ConnDone tr m' run' =>
            let (tr', o) := listen_loop rest m' run' in (tr ++ tr', o)
        | ConnRaised tr m' e => (tr, ListenRaised m' e)
        | ConnHang m' => ([], ListenHang m')
        end
    end.

Definition listen_signal (inputs : list ListenInput) (m : Manager)
    : list ListenEvent * listen_outcome :=
  listen_loop inputs m true.

(** Managers the listener loop can be serving: created by [__init__] and
    changed by the other threads or by a handled connection after which the
    loop goes on. *)
Inductive reachable : Manager -> Prop :=
  | reach_init cfg devices m :
      manager_init cfg devices false = Ok m -> reachable m
  | reach_background m b :
      reachable m -> reachable (background b m)
  | reach_conn m chunks tr m' :
      reachable m -> handle_conn chunks m = ConnDone tr m' true -> reachable m'.

(** The controllers of a manager ([None] counts as none). *)
Definition controllers_of (m : Manager) : list GPUController :=
  match gpu_controllers m with Some cs => cs | None => [] end.

(** What holds of every manager the listener can be serving: the signal
    and the thread are set together; a controller holds exactly when it
    has a hold thread; nobody holds unless the controllers loop is alive;
    and all histories share one capacity, with nobody holding when it is
    zero. *)
Definition mgr_inv (m : Manager) : Prop :=
  running_signal m = running_thread m /\
  (forall c, In c (controllers_of m) -> holding c = holding_executor c) /\
  ((running_thread m = false \/ loop_alive m = false) ->
     forall c, In c (controllers_of m) -> holding c = false) /\
  exists n, (forall c, In c (controllers_of m) -> dq_maxlen (gpu_snapshot_queue c) = n) /\
    (n = 0%nat -> forall c, In c (controllers_of m) -> holding c = false).

End Manager.


(* ------------------------------------------------------------------ *)
(** * Concrete inputs *)

Module Examples.
Import Core Controller Manager.
Local Open Scope Q_scope.

(** [AlgorithmConfig()] and a [ControllerConfig] with a 6-second window. *)
Definition alg0 : AlgorithmConfig :=
  {| operator_gb := 1; util_eps := 1 # 100; max_sleep_time := 1;
     min_sleep_time := 0; inspect_interval := 1; util_samples_num := 5 |}.

Definition cfg0 : ControllerConfig :=
  {| wait_minutes := 1 # 10; mem_threshold := 1 # 2; hold_mem := 40;
     hold_util := 8 # 10; alg_config := alg0 |}.

Definition snap_idle : GPUSnapshot := {| used_mem := 0; free_mem := 80; util := 0 |}.

(** Controller 0 after six idle samples, and the same controller holding. *)
Definition ctl_full : GPUController :=
  fold_left inspect_step (repeat snap_idle 6) (new_controller cfg0 0).

Definition ctl_holding : GPUController := set_holding ctl_full true.


Definition hold_in (toc tic u used : Q) : HoldInput :=
  {| in_stop := false; in_toc := toc; in_tic := tic; in_util := u; in_mem_used := used |}.

(** A request and the reply without error. *)
Definition request (sig : Signal) : SocketData :=
  {| sd_signal := sig; sd_config := None; sd_error := None |}.

Definition reply_ok : SocketData := request GREETING.

(** A manager just created on a machine with two GPUs. *)
Definition mgr0 : Manager :=
  {| mgr_config := cfg0; running_signal := false; running_thread := false;
     loop_alive := false; gpu_controllers := None; device_count := 2;
     listener_open := true; address_exists := true |}.

(** Six samples on each of the two GPUs, then one controllers-loop pass. *)
Definition idle_then_tick : list Background :=
  List.concat (repeat [BgSample 0 snap_idle; BgSample 1 snap_idle] 6) ++ [BgTick].

Definition mgr_started : Manager :=
  match handle_conn [send_socket_data (request START)] mgr0 with
  | ConnDone _ m _ => m
  | _ => mgr0
  end.

Definition mgr_holding : Manager := fold_left (fun m b => background b m) idle_then_tick mgr_started.

(** A message whose error text is the sentinel itself. *)
Definition msg_with_sentinel : SocketData :=
  {| sd_signal := GREETING; sd_config := None;
     sd_error := Some (exc RuntimeError "END_OF_SOCKET_DATA") |}.

(** A START request carrying a configuration. *)
Definition start_with_cfg0 : SocketData :=
  {| sd_signal := START; sd_config := Some cfg0; sd_error := None |}.

(** A START request with extreme values: [util_eps = 2.0 ** -66],
    [util_samples_num = 2 ** 31] and [hold_mem = 2.0 ** 1000]. *)
Definition start_wide : SocketData :=
  {| sd_signal := START;
     sd_config := Some {| wait_minutes := 1 # 10; mem_threshold := 1 # 2;
                          hold_mem := inject_Z (2 ^ 1000); hold_util := 8 # 10;
                          alg_config := {| operator_gb := 1; util_eps := 1 # (2 ^ 66);
                                           max_sleep_time := 1; min_sleep_time := 0;
                                           inspect_interval := 1;
                                           util_samples_num := 2 ^ 31 |} |};
     sd_error := None |}.

(** Bytes that are not a pickle, framed by the sentinel. *)
Definition garbage_frame : bytes := bytes_of_string "garbage" ++ EOS.




Definition st_converged : HoldState :=
  {| hs_first := false; hs_min_sleep_time := 0; hs_mid_sleep_time := 1 # 4;
     hs_max_sleep_time := 1 # 2; hs_find_target_sleep_time := true; hs_util_samples := [];
     hs_tic := 0; hs_holder_size := Some 1%Z |}.

End Examples.


(* ------------------------------------------------------------------ *)
(** * [GPUController.get_history_metric] (gpu.py) *)

Module Metrics.
Import Core Controller.
Local Open Scope Q_scope.

(** [name: Literal["used_mem", "free_mem", "util"]] *)
Inductive metric_name := MUsedMem | MFreeMem | MUtil.

(** [metric_type: Literal["avg", "max", "min"]] *)
Inductive metric_type := MAvg | MMax | MMin.

(** [getattr(snapshot, name)] *)
Definition snapshot_field (n : metric_name) (s : GPUSnapshot) : Q :=
  match n with
  | MUsedMem => used_mem s
  | MFreeMem => free_mem s
  | MUtil => util s
  end.

(** Python's [min(metrics)]: the first minimal element; [ValueError] on an
    empty sequence. *)
Definition py_min (l : list Q) : outcome Q :=
  match l with
  | [] => Raise (exc ValueError "min() iterable argument is empty")
  | x :: t => Ok (fold_left (fun m y => if Qltb y m then y else m) t x)
  end.

(** [get_history_metric(name, metric_type)]: [sum(metrics) / len(metrics)]
    divides by zero on an empty history.  The mean is taken exact here;
    Python's float [sum] and division round it, so nothing below relies on
    its value. *)
Definition get_history_metric (c : GPUController) (n : metric_name) (t : metric_type)
    : outcome Q :=
  let metrics := map (snapshot_field n) (dq_items (gpu_snapshot_queue c)) in
  match t with
  | MAvg =>
      if Nat.eqb (List.length metrics) 0 then Raise (exc ZeroDivisionError "division by zero")
      else Ok (Qsum metrics / inject_Z (Z.of_nat (List.length metrics)))
  | MMax => py_max metrics
  | MMin => py_min metrics
  end.

End Metrics.



(* ------------------------------------------------------------------ *)
(** * Facts about the framing *)

Module FramingFacts.
Import Core.
Local Open Scope Z_scope.

Lemma prefixb_length (p s : bytes) :
  prefixb p s = true -> (List.length p <= List.length s)%nat.
Proof.
  revert s; induction p as [|a p IH]; intros [|b s] H; simpl in *; try lia; try discriminate.
  apply andb_prop in H as [_ H]. specialize (IH s H). lia.
Qed.

Lemma prefixb_app (p s t : bytes) :
  prefixb p s = true -> prefixb p (s ++ t) = true.
Proof.
  revert s; induction p as [|a p IH]; intros [|b s] H; simpl in *; try easy.
  apply andb_prop in H as [H1 H2]. now rewrite H1, (IH s H2).
Qed.

Lemma prefixb_app_long (p s t : bytes) :
  (List.length p <= List.length s)%nat -> prefixb p (s ++ t) = prefixb p s.
Proof.
  revert s; induction p as [|a p IH]; intros [|b s] H; simpl in *; try easy; try lia.
  rewrite IH by lia. reflexivity.
Qed.

Lemma prefixb_app_short (p y s : bytes) :
  prefixb p (y ++ s) = true -> (List.length y <= List.length p)%nat ->
  prefixb (skipn (List.length y) p) s = true.
Proof.
  revert p; induction y as [|a y IH]; intros p H Hl; simpl in *; [exact H|].
  destruct p as [|b p]; simpl in *; [lia|].
  apply andb_prop in H as [_ H]. apply IH; [exact H | lia].
Qed.

Lemma find_sub_bound (p s : bytes) (i : nat) :
  find_sub p s = Some i -> (i + List.length p <= List.length s)%nat.
Proof.
  revert i; induction s as [|b s IH]; intros i H; simpl in H.
  - destruct (prefixb p []) eqn:E; [|discriminate].
    injection H as <-. apply prefixb_length in E. simpl in *; lia.
  - destruct (prefixb p (b :: s)) eqn:E.
    + injection H as <-. apply prefixb_length in E. simpl in *; lia.
    + destruct (find_sub p s) as [j|] eqn:F; simpl in H; [|discriminate].
      injection H as <-. specialize (IH j eq_refl). simpl; lia.
Qed.

Lemma find_sub_app (p s t : bytes) (i : nat) :
  find_sub p s = Some i -> find_sub p (s ++ t) = Some i.
Proof.
  revert i; induction s as [|b s IH]; intros i H.
  - simpl in H. destruct (prefixb p []) eqn:E; [|discriminate].
    injection H as <-. pose proof (prefixb_app _ _ t E) as E'. simpl in E' |- *.
    destruct t; simpl; now rewrite E'.
  - pose proof (find_sub_bound _ _ _ H) as Hb.
    simpl in H |- *.
    destruct (prefixb p (b :: s)) eqn:E.
    + assert (E' := prefixb_app _ _ t E). simpl in E'. rewrite E'. exact H.
    + assert (E' : prefixb p (b :: s ++ t) = prefixb p (b :: s))
        by (apply (prefixb_app_long p (b :: s) t); lia).
      rewrite E', E.
      destruct (find_sub p s) as [j|] eqn:F; simpl in H; [|discriminate].
      injection H as <-. simpl. now rewrite (IH j eq_refl).
Qed.

(** The sentinel has no border: no proper suffix of it is a prefix of it.
    Hence an occurrence of it cannot straddle a sentinel-free payload and
    the appended sentinel. *)
Lemma EOS_no_border (k : nat) :
  (1 <= k <= 17)%nat -> prefixb (skipn k EOS) EOS = false.
Proof.
  intros Hk.
  do 18 (destruct k as [|k]; [try lia; reflexivity|]). lia.
Qed.

Lemma EOS_length : List.length EOS = 18%nat.
Proof. reflexivity. Qed.

Lemma find_sub_cons (p : bytes) (a : Z) (s : bytes) :
  find_sub p (a :: s) =
  if prefixb p (a :: s) then Some 0%nat else option_map S (find_sub p s).
Proof. reflexivity. Qed.

Lemma find_sub_prefix (p s : bytes) :
  prefixb p s = true -> find_sub p s = Some 0%nat.
Proof. intros H. destruct s; simpl; now rewrite H. Qed.

Lemma find_sub_framed (x r : bytes) :
  find_sub EOS x = None -> find_sub EOS (x ++ EOS ++ r) = Some (List.length x).
Proof.
  induction x as [|a x IH]; intros H.
  - rewrite app_nil_l. apply find_sub_prefix, prefixb_app. reflexivity.
  - rewrite find_sub_cons in H.
    destruct (prefixb EOS (a :: x)) eqn:E; [discriminate|].
    destruct (find_sub EOS x) as [j|] eqn:F; [discriminate|].
    rewrite <- app_comm_cons, find_sub_cons, (IH eq_refl).
    destruct (prefixb EOS (a :: x ++ EOS ++ r)) eqn:E2; [|reflexivity].
    exfalso. rewrite app_comm_cons in E2.
    destruct (Nat.le_gt_cases 18 (S (List.length x))) as [Hl|Hl].
    + rewrite prefixb_app_long in E2 by (rewrite EOS_length; simpl; lia).
      congruence.
    + apply prefixb_app_short in E2; [|rewrite EOS_length; simpl; lia].
      rewrite prefixb_app_long in E2
        by (rewrite length_skipn, EOS_length; lia).
      rewrite EOS_no_border in E2 by (simpl; lia). discriminate.
Qed.

Lemma firstn_app_le {A} (n : nat) (l1 l2 : list A) :
  (n <= List.length l1)%nat -> firstn n (l1 ++ l2) = firstn n l1.
Proof.
  intros H. rewrite firstn_app. replace (n - List.length l1)%nat with 0%nat by lia.
  simpl. apply app_nil_r.
Qed.

(** The receive loop, fed any chunking of a frame, returns the payload. *)
Lemma recv_loop_frame (x r : bytes) (chunks : list bytes) (buf : bytes) :
  find_sub EOS x = None ->
  find_sub EOS buf = None ->
  buf ++ List.concat chunks = x ++ EOS ++ r ->
  recv_loop buf chunks = RecvFrame x.
Proof.
  intros Hx. revert buf; induction chunks as [|c cs IH]; intros buf Hb Hs.
  - change (List.concat []) with (@nil Z) in Hs. rewrite app_nil_r in Hs. subst buf.
    rewrite find_sub_framed in Hb by exact Hx. discriminate.
  - change (List.concat (c :: cs)) with (c ++ List.concat cs) in Hs.
    cbn [recv_loop]. unfold bytes_in, split_first.
    destruct (find_sub EOS (buf ++ c)) as [i|] eqn:F.
    + pose proof (find_sub_app _ _ (List.concat cs) _ F) as F2.
      pose proof (find_sub_bound _ _ _ F) as Hb2.
      rewrite EOS_length in Hb2. rewrite app_assoc in Hs. rewrite Hs, find_sub_framed in F2 by exact Hx.
      injection F2 as <-. f_equal.
      rewrite <- (firstn_app_le _ (buf ++ c) (List.concat cs)) by lia.
      rewrite Hs, firstn_app_le by lia. apply firstn_all.
    + apply IH; [exact F|]. now rewrite <- app_assoc.
Qed.

End FramingFacts.

(* ------------------------------------------------------------------ *)
(** * Facts about the controller *)

Module ControllerFacts.
Import Core Controller Examples.
Local Open Scope Q_scope.

Lemma Qltb_iff (a b : Q) : Qltb a b = true <-> a < b.
Proof.
  unfold Qltb. rewrite negb_true_iff. split; intros H.
  - apply Qnot_le_lt. intros H'. apply Qle_bool_iff in H'. congruence.
  - destruct (Qle_bool b a) eqn:E; [|reflexivity].
    apply Qle_bool_iff in E. exfalso. exact (Qlt_not_le a b H E).
Qed.

Lemma Qltb_false (a b : Q) : Qltb a b = false -> b <= a.
Proof.
  intros H. apply Qnot_lt_le. intros H'. apply Qltb_iff in H'. congruence.
Qed.

Lemma fold_max_spec (t : list Q) (x : Q) :
  (forall y, In y (x :: t) -> y <= fold_left (fun m y => if Qltb m y then y else m) t x) /\
  In (fold_left (fun m y => if Qltb m y then y else m) t x) (x :: t).
Proof.
  revert x; induction t as [|y t IH]; intros x; cbn [fold_left].
  - split; [intros z [<-|[]]; apply Qle_refl | left; reflexivity].
  - destruct (IH (if Qltb x y then y else x)) as [H1 H2].
    set (F := fold_left _ t _) in *. split.
    + intros z Hz. destruct (Qltb x y) eqn:E.
      * apply Qltb_iff in E. destruct Hz as [<-|[<-|Hz]].
        -- apply Qle_trans with y; [apply Qlt_le_weak; exact E|apply H1; left; reflexivity].
        -- apply H1; left; reflexivity.
        -- apply H1; right; exact Hz.
      * apply Qltb_false in E. destruct Hz as [<-|[<-|Hz]].
        -- apply H1; left; reflexivity.
        -- apply Qle_trans with x; [exact E|apply H1; left; reflexivity].
        -- apply H1; right; exact Hz.
    + destruct H2 as [H2|H2].
      * destruct (Qltb x y); rewrite <- H2; simpl; auto.
      * simpl; auto.
Qed.

Lemma py_max_below (x : Q) (t : list Q) (thr : Q) :
  exists mx, py_max (x :: t) = Ok mx /\
    (Qltb mx thr = true <-> forall y, In y (x :: t) -> y < thr).
Proof.
  eexists; split; [reflexivity|].
  destruct (fold_max_spec t x) as [H1 H2].
  rewrite Qltb_iff. split.
  - intros H y Hy. apply Qle_lt_trans with (2 := H). apply H1, Hy.
  - intros H. apply H, H2.
Qed.

Lemma deque_append_length {A} (d : Deque A) (x : A) :
  List.length (dq_items (deque_append d x)) = Nat.min (S (List.length (dq_items d))) (dq_maxlen d)
  /\ dq_maxlen (deque_append d x) = dq_maxlen d.
Proof.
  unfold deque_append; cbn [dq_items dq_maxlen].
  rewrite length_skipn, length_app. cbn [List.length]. split; [|reflexivity].
  destruct (Nat.le_ge_cases (S (List.length (dq_items d))) (dq_maxlen d)).
  - rewrite Nat.min_l by exact H. lia.
  - rewrite Nat.min_r by exact H. lia.
Qed.

Ltac min_cases :=
  repeat match goal with
         | |- context [Nat.min ?x ?y] => destruct (Nat.min_spec x y) as [[? ->]|[? ->]]
         end; lia.

Lemma inspect_samples_length (samples : list GPUSnapshot) (c : GPUController) :
  inspect_stop_signal c = false ->
  (List.length (dq_items (gpu_snapshot_queue c)) <= dq_maxlen (gpu_snapshot_queue c))%nat ->
  List.length (dq_items (gpu_snapshot_queue (fold_left inspect_step samples c))) =
    Nat.min (List.length (dq_items (gpu_snapshot_queue c)) + List.length samples)
            (dq_maxlen (gpu_snapshot_queue c))
  /\ dq_maxlen (gpu_snapshot_queue (fold_left inspect_step samples c)) =
     dq_maxlen (gpu_snapshot_queue c).
Proof.
  revert c; induction samples as [|s samples IH]; intros c Hs Hl; cbn [fold_left].
  - cbn [List.length]. split; [min_cases|reflexivity].
  - assert (E : inspect_step c s = set_queue c (deque_append (gpu_snapshot_queue c) s))
      by (unfold inspect_step; rewrite Hs; reflexivity).
    rewrite E.
    destruct (deque_append_length (gpu_snapshot_queue c) s) as [L M].
    set (c1 := set_queue c (deque_append (gpu_snapshot_queue c) s)).
    assert (Q1 : gpu_snapshot_queue c1 = deque_append (gpu_snapshot_queue c) s) by reflexivity.
    destruct (IH c1) as [IH1 IH2].
    + exact Hs.
    + rewrite Q1, L, M. min_cases.
    + rewrite IH1, IH2, Q1, L, M. cbn [List.length]. split; [min_cases|reflexivity].
Qed.

(** ** C1 *)

(** Claim C1 (as amended): on a controller with a history of positive
    capacity [N], the manager's start condition holds exactly when the
    history is full, the controller is not already holding, and every
    [used_mem] in the history is below [mem_threshold] (the maximum is
    below it); after the history is reset, it is full after [k] samples
    exactly when [N <= k], so the condition is false for the first [N-1]
    samples. *)
Theorem start_condition_exact (cfg : ControllerConfig) (c : GPUController) :
  (0 < dq_maxlen (gpu_snapshot_queue c))%nat ->
  (Manager.validate_controller_start_condition cfg c = Ok true <->
     is_history_full c = true /\ holding c = false /\
     forall s, In s (dq_items (gpu_snapshot_queue c)) -> used_mem s < mem_threshold cfg) /\
  (forall samples, inspect_stop_signal c = false ->
     is_history_full (fold_left inspect_step samples (reset_history c)) =
     (dq_maxlen (gpu_snapshot_queue c) <=? List.length samples)%nat).
Proof.
  intros HN. split.
  - unfold Manager.validate_controller_start_condition.
    destruct (is_history_full c) eqn:F.
    2:{ split; [discriminate|intros [H _]; discriminate]. }
    destruct (holding c) eqn:Hh; cbn [negb].
    1:{ split; [discriminate|intros [_ [H _]]; discriminate]. }
    unfold is_history_full in F. apply Nat.eqb_eq in F.
    unfold history_max_used_mem.
    destruct (dq_items (gpu_snapshot_queue c)) as [|s0 t] eqn:Ei.
    + simpl in F. lia.
    + destruct (py_max_below (used_mem s0) (map used_mem t) (mem_threshold cfg))
        as [mx [Hm Hiff]].
      change (map used_mem (s0 :: t)) with (used_mem s0 :: map used_mem t).
      rewrite Hm. split.
      * intros H. injection H as H. split; [reflexivity|split; [reflexivity|]].
        intros s Hs. apply Hiff; [exact H|].
        change (used_mem s0 :: map used_mem t) with (map used_mem (s0 :: t)).
        apply in_map, Hs.
      * intros [_ [_ H]]. f_equal. apply Hiff. intros y Hy.
        change (used_mem s0 :: map used_mem t) with (map used_mem (s0 :: t)) in Hy.
        apply in_map_iff in Hy as [s [<- Hs]]. apply H, Hs.
  - intros samples Hs.
    destruct (inspect_samples_length samples (reset_history c)) as [L M]; [exact Hs|simpl; lia|].
    unfold is_history_full. rewrite L, M. cbn [reset_history set_queue gpu_snapshot_queue
      deque_clear dq_items dq_maxlen List.length Nat.add].
    destruct (Nat.leb_spec (dq_maxlen (gpu_snapshot_queue c)) (List.length samples)).
    + apply Nat.eqb_eq. lia.
    + apply Nat.eqb_neq. lia.
Qed.



End ControllerFacts.

Module ControllerClaims.
Import Core Controller Examples ControllerFacts.
Local Open Scope Q_scope.

Lemma start_condition_exact_witness :
  exists cfg c, (0 < dq_maxlen (gpu_snapshot_queue c))%nat /\
  (Manager.validate_controller_start_condition cfg c = Ok true <->
     is_history_full c = true /\ holding c = false /\
     forall s, In s (dq_items (gpu_snapshot_queue c)) -> used_mem s < mem_threshold cfg) /\
  (forall samples, inspect_stop_signal c = false ->
     is_history_full (fold_left inspect_step samples (reset_history c)) =
     (dq_maxlen (gpu_snapshot_queue c) <=? List.length samples)%nat).
Proof.
  exists cfg0, ctl_full.
  assert (H : (0 < dq_maxlen (gpu_snapshot_queue ctl_full))%nat) by (vm_compute; lia).
  split; [exact H|]. apply (start_condition_exact cfg0 ctl_full H).
Defined.

(** Claim C1 fails as stated: a controller that is already holding, whose
    history is full and entirely below the threshold, satisfies the idle
    predicate, yet the start condition is false and the controllers loop
    does not start it. *)
Lemma start_condition_holding_counterexample :
  is_history_full ctl_holding = true /\
  (forall s, In s (dq_items (gpu_snapshot_queue ctl_holding)) -> used_mem s < mem_threshold cfg0) /\
  Manager.validate_controller_start_condition cfg0 ctl_holding = Ok false /\
  Manager.tick_controllers cfg0 [ctl_holding] = ([ctl_holding], None).
Proof.
  split; [vm_compute; reflexivity|].
  split; [|split; vm_compute; reflexivity].
  intros s Hs. vm_compute in Hs.
  repeat (destruct Hs as [<-|Hs]; [reflexivity|]). destruct Hs.
Qed.

(** ** C4 *)







(** ** C5 *)

(** Claim C5 (as amended): [hold_mem] is a float field with default [40]:
    left out of the configuration it is [40], [None] is rejected, and the
    target footprint of [hold] is [hold_mem] whatever the device's total
    memory. *)
Theorem hold_mem_defaults_to_40 :
  validate_hold_mem FieldAbsent = Ok 40 /\
  (exists e, validate_hold_mem FieldNone = Raise e /\ exc_class e = ValidationError) /\
  forall cfg mem_total t0 inputs,
    hold cfg mem_total t0 inputs =
    hold_run (alg_config cfg) (hold_mem cfg) (hold_util cfg) (hold_init (alg_config cfg) t0) inputs.
Proof.
  split; [reflexivity|]. split; [eexists; split; reflexivity|].
  intros; reflexivity.
Qed.

(** Claim C5 fails as stated: with [hold_mem] left out (so [40]) on a
    device of 24 GB total with 2 GB used, [hold] sizes the holder for
    38 GB, not for half the total memory minus the used memory (10 GB). *)
Lemma hold_mem_absent_counterexample :
  validate_hold_mem FieldAbsent = Ok (hold_mem cfg0) /\
  hold cfg0 24 0 [hold_in 0 0 0 2] =
    HoldRunning
      {| hs_first := false; hs_min_sleep_time := 0; hs_mid_sleep_time := (1 + 0) / 2;
         hs_max_sleep_time := 1; hs_find_target_sleep_time := false; hs_util_samples := [];
         hs_tic := 0; hs_holder_size := Some 5100273664%Z |}
      [EvMemUsedRead; EvHolderAlloc 5100273664] /\
  compute_storage_size (40 - 2) = Ok 5100273664%Z /\
  compute_storage_size (24 * (1 # 2) - 2) <> Ok 5100273664%Z.
Proof.
  split; [reflexivity|]. split; [vm_compute; reflexivity|].
  split; [vm_compute; reflexivity|]. vm_compute. discriminate.
Qed.

(** ** C6 *)






(** ** C7 *)

(** Claim C7 (as amended): [stop_holding] on a controller with no hold
    thread raises [RuntimeError] at once (it joins nothing), and
    [stop_controllers] on a manager with no controllers thread raises
    [RuntimeError] at once. *)
Theorem stop_when_stopped_raises :
  (forall c, holding_executor c = false ->
     stop_holding c = Raise (exc RuntimeError "GPUHolder is not running")) /\
  (forall m, Manager.running_thread m = false ->
     Manager.stop_controllers m =
     Raise (exc RuntimeError "Controllers are not running. Please start them first.")).
Proof.
  split.
  - intros c H. unfold stop_holding. rewrite H. reflexivity.
  - intros m H. unfold Manager.stop_controllers. rewrite H. reflexivity.
Qed.

Lemma stop_when_stopped_raises_witness :
  (holding_executor ctl_full = false /\
   stop_holding ctl_full = Raise (exc RuntimeError "GPUHolder is not running")) /\
  (Manager.running_thread mgr0 = false /\
   Manager.stop_controllers mgr0 =
   Raise (exc RuntimeError "Controllers are not running. Please start them first.")).
Proof.
  destruct stop_when_stopped_raises as [H1 H2].
  assert (E1 : holding_executor ctl_full = false) by (vm_compute; reflexivity).
  assert (E2 : Manager.running_thread mgr0 = false) by reflexivity.
  split; [split; [exact E1|exact (H1 _ E1)]|split; [exact E2|exact (H2 _ E2)]].
Defined.

(** Claim C7 fails as stated: a controller started and then stopped
    raises [RuntimeError] when stopped again, and so does
    [stop_controllers] on a manager whose controllers were never started. *)
Lemma stop_twice_counterexample :
  match start_holding ctl_full with
  | Ok c1 =>
      match stop_holding c1 with
      | Ok c2 => stop_holding c2 = Raise (exc RuntimeError "GPUHolder is not running")
      | _ => False
      end
  | _ => False
  end /\
  holding (set_holding ctl_full false) = false /\
  Manager.stop_controllers mgr0 =
  Raise (exc RuntimeError "Controllers are not running. Please start them first.").
Proof.
  split; [vm_compute; reflexivity|]. split; reflexivity.
Qed.

End ControllerClaims.

(* ------------------------------------------------------------------ *)
(** * The listener and the manager's reachable states *)

Module ManagerFacts.
Import Core Controller Manager Examples.

Lemma validate_cases (cfg : ControllerConfig) (c : GPUController) :
  validate_controller_start_condition cfg c = Ok false \/
  (validate_controller_start_condition cfg c = Ok true /\ holding c = false /\
   (0 < dq_maxlen (gpu_snapshot_queue c))%nat) \/
  (exists e, validate_controller_start_condition cfg c = Raise e /\
   dq_maxlen (gpu_snapshot_queue c) = 0%nat).
Proof.
  unfold validate_controller_start_condition, is_history_full, history_max_used_mem.
  destruct (Nat.eqb_spec (List.length (dq_items (gpu_snapshot_queue c)))
                         (dq_maxlen (gpu_snapshot_queue c))) as [Hl|Hl];
    [|left; reflexivity].
  destruct (holding c) eqn:Hh; [left; reflexivity|]. cbn [negb].
  destruct (dq_items (gpu_snapshot_queue c)) as [|s t] eqn:I.
  - right; right. eexists; split; [reflexivity|]. cbn in Hl. lia.
  - cbn [map py_max].
    destruct (Qltb _ (mem_threshold cfg)); [right; left|left; reflexivity].
    split; [reflexivity|]. split; [reflexivity|]. cbn in Hl. lia.
Qed.

Lemma tick_controllers_spec (cfg : ControllerConfig) (n : nat) (cs : list GPUController) :
  (forall c, In c cs -> holding c = holding_executor c /\ dq_maxlen (gpu_snapshot_queue c) = n) ->
  (forall c, In c (fst (tick_controllers cfg cs)) ->
     holding c = holding_executor c /\ dq_maxlen (gpu_snapshot_queue c) = n) /\
  (n = 0%nat -> fst (tick_controllers cfg cs) = cs) /\
  ((0 < n)%nat -> snd (tick_controllers cfg cs) = None).
Proof.
  induction cs as [|c rest IH]; intros H.
  - split; [intros c []|]. split; reflexivity.
  - assert (Hc := H c (or_introl eq_refl)).
    destruct (IH (fun c' Hin => H c' (or_intror Hin))) as [A [B C]].
    cbn [tick_controllers].
    destruct (validate_cases cfg c) as [V|[[V [Hh Hn]]|[e [V Hn]]]]; rewrite V.
    + destruct (tick_controllers cfg rest) as [r e] eqn:T. cbn [fst snd] in *.
      split; [intros c' [<-|Hin]; [exact Hc|exact (A c' Hin)]|].
      split; [intros Hz; rewrite (B Hz); reflexivity|exact C].
    + assert (Hx : holding_executor c = false) by (destruct Hc as [E _]; congruence).
      unfold start_holding. rewrite Hx.
      destruct (tick_controllers cfg rest) as [r e] eqn:T. cbn [fst snd] in *.
      split; [intros c' [<-|Hin]; [split; [reflexivity|apply Hc]|exact (A c' Hin)]|].
      split; [intros Hz; destruct Hc as [_ Hm]; lia|exact C].
    + cbn [fst snd]. split; [intros c' Hin; exact (H c' Hin)|].
      split; [reflexivity|]. intros Hp. destruct Hc as [_ Hm]. lia.
Qed.

Lemma loop_cleanup_spec (n : nat) (cs : list GPUController) :
  (forall c, In c cs -> holding c = holding_executor c /\ dq_maxlen (gpu_snapshot_queue c) = n) ->
  forall c, In c (fst (loop_cleanup cs)) ->
    holding c = false /\ holding_executor c = false /\ dq_maxlen (gpu_snapshot_queue c) = n.
Proof.
  induction cs as [|c rest IH]; intros H; [intros c' []|].
  assert (Hc := H c (or_introl eq_refl)).
  specialize (IH (fun c' Hin => H c' (or_intror Hin))).
  cbn [loop_cleanup]. destruct (holding c) eqn:Hh.
  - assert (Hx : holding_executor c = true) by (destruct Hc as [E _]; congruence).
    unfold stop_holding. rewrite Hx. cbn [negb].
    destruct (loop_cleanup rest) as [r e] eqn:T. cbn [fst] in *.
    intros c' [<-|Hin]; [|exact (IH c' Hin)].
    split; [reflexivity|]. split; [reflexivity|]. apply Hc.
  - destruct (loop_cleanup rest) as [r e] eqn:T. cbn [fst] in *.
    intros c' [<-|Hin]; [|exact (IH c' Hin)].
    split; [exact Hh|]. split; [destruct Hc as [E _]; cbn; congruence|]. apply Hc.
Qed.

(** Managers where nobody holds satisfy the invariant. *)
Lemma quiet_inv (m : Manager) :
  running_signal m = running_thread m ->
  (forall c, In c (controllers_of m) -> holding c = false /\ holding_executor c = false) ->
  (exists n, forall c, In c (controllers_of m) -> dq_maxlen (gpu_snapshot_queue c) = n) ->
  mgr_inv m.
Proof.
  intros I0 Q [n N]. split; [exact I0|].
  split; [intros c Hin; destruct (Q c Hin) as [-> ->]; reflexivity|].
  split; [intros _ c Hin; apply (Q c Hin)|].
  exists n. split; [exact N|]. intros _ c Hin; apply (Q c Hin).
Qed.

Lemma stop_controllers_quiet (m m' : Manager) :
  mgr_inv m -> stop_controllers m = Ok m' ->
  running_signal m' = false /\ running_thread m' = false /\
  (forall c, In c (controllers_of m') -> holding c = false /\ holding_executor c = false) /\
  (exists n, forall c, In c (controllers_of m') -> dq_maxlen (gpu_snapshot_queue c) = n) /\
  address_exists m' = address_exists m /\ listener_open m' = listener_open m.
Proof.
  intros (I0 & I1 & I2 & n & I3a & I3b) H. unfold stop_controllers in H.
  destruct (running_thread m) eqn:Et; [|discriminate]. cbn [negb] in H.
  injection H as <-.
  split; [reflexivity|]. split; [reflexivity|].
  unfold controllers_of in *. cbn [with_running with_controllers gpu_controllers
    address_exists listener_open].
  destruct (loop_alive m) eqn:La.
  - destruct (gpu_controllers m) as [cs|] eqn:G.
    + assert (Hcs : forall c, In c cs ->
                holding c = holding_executor c /\ dq_maxlen (gpu_snapshot_queue c) = n)
        by (intros c Hin; split; [exact (I1 c Hin)|exact (I3a c Hin)]).
      split; [intros c Hin; destruct (loop_cleanup_spec n cs Hcs c Hin) as [A [B _]]; split; assumption|].
      split; [exists n; intros c Hin; apply (loop_cleanup_spec n cs Hcs c Hin)|].
      split; reflexivity.
    + split; [intros c []|]. split; [exists n; intros c []|]. split; reflexivity.
  - assert (Q : forall c, In c (match gpu_controllers m with Some cs => cs | None => [] end) ->
                  holding c = false) by (apply I2; right; reflexivity).
    split; [intros c Hin; split; [exact (Q c Hin)|rewrite <- (I1 c Hin); exact (Q c Hin)]|].
    split; [exists n; exact I3a|]. split; reflexivity.
Qed.

Lemma background_inv (b : Background) (m : Manager) :
  mgr_inv m -> mgr_inv (background b m).
Proof.
  intros Hinv. destruct b as [|k s|]; cbn [background].
  - unfold controllers_tick.
    destruct (running_signal m && loop_alive m) eqn:RL; [|exact Hinv].
    apply andb_prop in RL as [Rs La].
    destruct Hinv as (I0 & I1 & I2 & n & I3a & I3b).
    unfold mgr_inv, controllers_of in *.
    destruct (gpu_controllers m) as [cs|] eqn:G.
    + assert (Hcs : forall c, In c cs ->
                holding c = holding_executor c /\ dq_maxlen (gpu_snapshot_queue c) = n)
        by (intros c Hin; split; [exact (I1 c Hin)|exact (I3a c Hin)]).
      destruct (tick_controllers_spec (mgr_config m) n cs Hcs) as [A [B C]].
      destruct (tick_controllers (mgr_config m) cs) as [cs' e] eqn:T. cbn [fst snd] in *.
      destruct e as [e|]; cbn.
      * assert (Hz : n = 0%nat) by (destruct n; [reflexivity|discriminate (C ltac:(lia))]).
        rewrite (B Hz).
        split; [exact I0|]. split; [exact I1|].
        split; [intros _; exact (I3b Hz)|]. exists n. split; [exact I3a|exact I3b].
      * split; [exact I0|]. split; [intros c Hin; apply (A c Hin)|].
        split; [intros [Ht|Hf]; congruence|].
        exists n. split; [intros c Hin; apply (A c Hin)|].
        intros Hz; rewrite (B Hz); exact (I3b Hz).
    + cbn. rewrite G. split; [exact I0|]. split; [intros c []|]. split; [intros _ c []|].
      exists n. split; intros; contradiction.
  - destruct Hinv as (I0 & I1 & I2 & n & I3a & I3b).
    unfold mgr_inv, controllers_of in *.
    destruct (gpu_controllers m) as [cs|] eqn:G; [|cbn; rewrite G; repeat split; auto; exists n; auto].
    cbn.
    assert (Hmap : forall c, In c (map (fun c => if Nat.eqb (ctl_id c) k then inspect_step c s else c) cs) ->
              exists c0, In c0 cs /\ holding c = holding c0 /\
                holding_executor c = holding_executor c0 /\
                dq_maxlen (gpu_snapshot_queue c) = dq_maxlen (gpu_snapshot_queue c0)).
    { intros c Hin. apply in_map_iff in Hin as [c0 [<- Hin]]. exists c0. split; [exact Hin|].
      destruct (Nat.eqb (ctl_id c0) k); [|split; [|split]; reflexivity].
      unfold inspect_step. destruct (inspect_stop_signal c0); [split; [|split]; reflexivity|].
      split; [reflexivity|]. split; reflexivity. }
    split; [exact I0|].
    split; [intros c Hin; destruct (Hmap c Hin) as (c0 & H0 & -> & -> & _); exact (I1 c0 H0)|].
    split; [intros P c Hin; destruct (Hmap c Hin) as (c0 & H0 & -> & _); exact (I2 P c0 H0)|].
    exists n. split.
    + intros c Hin; destruct (Hmap c Hin) as (c0 & H0 & _ & _ & ->); exact (I3a c0 H0).
    + intros Hz c Hin; destruct (Hmap c Hin) as (c0 & H0 & -> & _); exact (I3b Hz c0 H0).
  - exact Hinv.
Qed.

Lemma reset_tail (m1 m' : Manager) :
  match device_count m1, history_maxlen_error (mgr_config m1) with
  | S _, Some e => MRaised m1 e
  | _, _ => MOk (with_controllers m1
                   (Some (map (new_controller (mgr_config m1)) (seq 0 (device_count m1)))))
  end = MOk m' ->
  m' = with_controllers m1 (Some (map (new_controller (mgr_config m1)) (seq 0 (device_count m1)))).
Proof.
  destruct (device_count m1) eqn:D; [|destruct (history_maxlen_error _)];
    intros H; try discriminate; injection H as <-; reflexivity.
Qed.

Lemma reset_controllers_quiet (m m' : Manager) :
  running_signal m = running_thread m ->
  reset_controllers m = MOk m' ->
  running_signal m' = running_thread m' /\
  forall c, In c (controllers_of m') ->
    holding c = false /\ holding_executor c = false /\
    dq_maxlen (gpu_snapshot_queue c) = history_maxlen (mgr_config m').
Proof.
  intros I0 H. unfold reset_controllers in H.
  assert (Hnew : forall cfg k c, In c (map (new_controller cfg) (seq 0 k)) ->
             holding c = false /\ holding_executor c = false /\
             dq_maxlen (gpu_snapshot_queue c) = history_maxlen cfg).
  { intros cfg k c Hin. apply in_map_iff in Hin as [i [<- _]].
    split; [reflexivity|]. split; reflexivity. }
  destruct (running_signal m) eqn:Rs.
  - destruct (stop_controllers m) as [m1| |] eqn:S; try discriminate.
    unfold stop_controllers in S.
    destruct (negb (running_thread m)); [discriminate|]. injection S as <-.
    apply reset_tail in H. subst m'. split; [reflexivity|]. apply Hnew.
  - apply reset_tail in H. subst m'. split; [cbn; rewrite Rs; exact I0|]. apply Hnew.
Qed.

Lemma dispatch_inv (sig : Signal) (cfg : option ControllerConfig) (m m' : Manager) :
  mgr_inv m -> dispatch sig cfg m = DispatchOk m' true -> mgr_inv m'.
Proof.
  intros Hinv H.
  assert (Hstart : start_like cfg m = DispatchOk m' true -> mgr_inv m').
  { unfold start_like. intros Hs.
    destruct (reset_controllers (update_config m cfg)) as [m2| |] eqn:R; try discriminate.
    destruct (start_controllers m2) as [m3| |] eqn:S; try discriminate.
    injection Hs as <-.
    assert (I0 : running_signal (update_config m cfg) = running_thread (update_config m cfg))
      by (destruct cfg; apply Hinv).
    destruct (reset_controllers_quiet _ _ I0 R) as [J0 J].
    unfold start_controllers in S. destruct (running_thread m2) eqn:Et; [discriminate|].
    unfold controllers_of in J.
    destruct (gpu_controllers m2) as [cs|] eqn:G; injection S as <-; apply quiet_inv;
      try reflexivity; unfold controllers_of; cbn; try rewrite G.
    - intros c Hin. apply in_map_iff in Hin as [c0 [<- Hin]].
      destruct (J c0 Hin) as [A [B _]]. split; assumption.
    - exists (history_maxlen (mgr_config m2)). intros c Hin.
      apply in_map_iff in Hin as [c0 [<- Hin]]. apply (J c0 Hin).
    - intros c [].
    - exists O. intros c []. }
  destruct sig; cbn [dispatch] in H.
  - exact (Hstart H).
  - destruct (stop_controllers m) as [m1| |] eqn:S; try discriminate.
    injection H as <-.
    destruct (stop_controllers_quiet m m1 Hinv S) as (A & B & C & D & _).
    apply quiet_inv; [congruence|exact C|exact D].
  - exact (Hstart H).
  - destruct (running_thread m); [destruct (stop_controllers m)|]; try discriminate;
      injection H; intros; discriminate.
  - injection H as <-. exact Hinv.
Qed.

Lemma handle_conn_done (chunks : list bytes) (m m' : Manager) (tr : list ListenEvent) (run : bool) :
  handle_conn chunks m = ConnDone tr m' run ->
  exists sig cfg, dispatch sig cfg m = DispatchOk m' run.
Proof.
  unfold handle_conn. intros H.
  destruct (recv_socket_data chunks) as [d| |]; try discriminate.
  destruct (dispatch (sd_signal d) (sd_config d) m) as [m1 r|m1 e|] eqn:D;
    cbv beta iota zeta delta [make_socket_data] in H; try discriminate.
  injection H as _ <- <-. exists (sd_signal d), (sd_config d). exact D.
Qed.

Lemma reachable_inv (m : Manager) : reachable m -> mgr_inv m.
Proof.
  induction 1 as [cfg devices m H|m b R IH|m chunks tr m' R IH H].
  - unfold manager_init in H. injection H as <-.
    apply quiet_inv; [reflexivity|intros c []|exists O; intros c []].
  - apply background_inv, IH.
  - destruct (handle_conn_done chunks m m' tr true H) as [sig [cfg D]].
    exact (dispatch_inv sig cfg m m' IH D).
Qed.

Lemma reachable_background (bs : list Background) (m : Manager) :
  reachable m -> reachable (fold_left (fun m b => background b m) bs m).
Proof.
  revert m; induction bs as [|b bs IH]; intros m R; [exact R|].
  cbn [fold_left]. apply IH, reach_background, R.
Qed.

(** SHUTDOWN on a manager satisfying the invariant. *)
Lemma dispatch_shutdown (cfg : option ControllerConfig) (m : Manager) :
  mgr_inv m ->
  exists m1, dispatch SHUTDOWN cfg m = DispatchOk m1 false /\
    (forall c, In c (controllers_of m1) -> holding c = false /\ holding_executor c = false) /\
    running_thread m1 = false /\ address_exists m1 = address_exists m /\
    listener_open m1 = listener_open m.
Proof.
  intros Hinv. cbn [dispatch].
  destruct (running_thread m) eqn:Et.
  - destruct (stop_controllers m) as [m1| |] eqn:S;
      [|unfold stop_controllers in S; rewrite Et in S; discriminate
       |unfold stop_controllers in S; rewrite Et in S; discriminate].
    destruct (stop_controllers_quiet m m1 Hinv S) as (A & B & C & D & E & F).
    exists m1. split; [reflexivity|]. split; [exact C|]. split; [exact B|]. split; assumption.
  - exists m. split; [reflexivity|].
    destruct Hinv as (I0 & I1 & I2 & _).
    split; [|split; [exact Et|split; reflexivity]].
    intros c Hin. assert (Hh := I2 (or_introl Et) c Hin).
    split; [exact Hh|rewrite <- (I1 c Hin); exact Hh].
Qed.

(** One accepted connection while the loop runs. *)
Lemma listen_loop_conn (chunks : list bytes) (rest : list ListenInput) (m : Manager) :
  address_exists m = true ->
  listen_loop (InConn chunks :: rest) m true =
  match handle_conn chunks m with
  | ConnDone tr m' run' => let (tr', o) := listen_loop rest m' run' in (tr ++ tr', o)
  | ConnRaised tr m' e => (tr, ListenRaised m' e)
  | ConnHang m' => ([], ListenHang m')
  end.
Proof. intros H. cbn [listen_loop andb]. rewrite H. reflexivity. Qed.

Lemma listen_loop_stopped (inputs : list ListenInput) (m : Manager) :
  listen_loop inputs m false = listen_finish m.
Proof. destruct inputs; reflexivity. Qed.

Lemma handle_conn_ok (chunks : list bytes) (d : SocketData) (m m' : Manager) (run : bool) :
  recv_socket_data chunks = Ok d ->
  dispatch (sd_signal d) (sd_config d) m = DispatchOk m' run ->
  handle_conn chunks m = ConnDone [Sent (send_socket_data reply_ok); ConnClosed] m' run.
Proof. intros H1 H2. unfold handle_conn. rewrite H1, H2. reflexivity. Qed.

Lemma handle_conn_error (chunks : list bytes) (d : SocketData) (m m' : Manager) (e : PyExc) :
  recv_socket_data chunks = Ok d ->
  dispatch (sd_signal d) (sd_config d) m = DispatchError m' e ->
  handle_conn chunks m =
  ConnRaised [ConnClosed] m'
    (exc ValidationError "1 validation error for SocketData error: Input should be an instance of Exception").
Proof. intros H1 H2. unfold handle_conn. rewrite H1, H2. reflexivity. Qed.

Lemma recv_request (sig : Signal) :
  recv_socket_data [send_socket_data (request sig)] = Ok (request sig).
Proof. destruct sig; vm_compute; reflexivity. Qed.

Lemma recv_loop_hang (chunks : list bytes) (buf : bytes) :
  find_sub EOS (buf ++ List.concat chunks) = None -> recv_loop buf chunks = RecvHang.
Proof.
  revert buf; induction chunks as [|x rest IH]; intros buf H; [reflexivity|].
  cbn [recv_loop]. unfold bytes_in.
  destruct (find_sub EOS (buf ++ x)) as [i|] eqn:F.
  - cbn [List.concat] in H. rewrite app_assoc in H.
    rewrite (FramingFacts.find_sub_app _ _ _ i F) in H. discriminate.
  - apply IH. cbn [List.concat] in H. rewrite <- app_assoc. exact H.
Qed.

End ManagerFacts.

Module ManagerClaims.
Import Core Controller Manager Examples ManagerFacts.

(** ** C2 *)

(** Claim C2 (divergence): when the dispatch of a decoded request raises,
    [SocketData(signal=GREETING, error=str(e))] itself raises pydantic's
    [ValidationError] (the [error] field only accepts an [Exception]
    instance), outside the [try]: the connection is closed with no reply
    sent and [listen_signal] raises, so no later connection is served. *)
Theorem dispatch_error_crashes_listener (m m' : Manager) (chunks : list bytes)
    (d : SocketData) (e : PyExc) (rest : list ListenInput) :
  address_exists m = true ->
  recv_socket_data chunks = Ok d ->
  dispatch (sd_signal d) (sd_config d) m = DispatchError m' e ->
  listen_signal (InConn chunks :: rest) m =
  ([ConnClosed],
   ListenRaised m' (exc ValidationError
     "1 validation error for SocketData error: Input should be an instance of Exception")).
Proof.
  intros Ha Hr Hd. unfold listen_signal. rewrite (listen_loop_conn chunks rest m Ha).
  rewrite (handle_conn_error chunks d m m' e Hr Hd). reflexivity.
Qed.

Lemma dispatch_error_crashes_listener_witness :
  (address_exists mgr0 = true /\
   recv_socket_data [send_socket_data (request STOP)] = Ok (request STOP) /\
   dispatch (sd_signal (request STOP)) (sd_config (request STOP)) mgr0 =
     DispatchError mgr0 (exc RuntimeError "Controllers are not running. Please start them first.")) /\
  listen_signal [InConn [send_socket_data (request STOP)];
                 InConn [send_socket_data (request GREETING)]] mgr0 =
  ([ConnClosed],
   ListenRaised mgr0 (exc ValidationError
     "1 validation error for SocketData error: Input should be an instance of Exception")).
Proof.
  assert (Ha : address_exists mgr0 = true) by reflexivity.
  assert (Hr := recv_request STOP).
  assert (Hd : dispatch (sd_signal (request STOP)) (sd_config (request STOP)) mgr0 =
     DispatchError mgr0 (exc RuntimeError "Controllers are not running. Please start them first."))
    by reflexivity.
  split; [split; [exact Ha|split; [exact Hr|exact Hd]]|].
  exact (dispatch_error_crashes_listener mgr0 mgr0 _ _ _ _ Ha Hr Hd).
Defined.

(** ** C8 *)

(** Claim C8 (divergence): nothing guards the decoding of a request.  If
    the bytes before the sentinel are not a pickle, [pickle.loads] raises
    [UnpicklingError]: the connection is closed but [listen_signal] raises,
    without closing the listener or removing its address, and no later
    connection is served.  If the sentinel never arrives, the handler never
    returns. *)
Theorem malformed_request_crashes_listener (m : Manager) (chunks : list bytes)
    (rest : list ListenInput) :
  address_exists m = true ->
  (forall b, recv_loop [] chunks = RecvFrame b -> pickle_loads b = None ->
     listen_signal (InConn chunks :: rest) m =
     ([ConnClosed], ListenRaised m (exc UnpicklingError "pickle data was truncated"))) /\
  (find_sub EOS (List.concat chunks) = None ->
     listen_signal (InConn chunks :: rest) m = ([], ListenHang m)).
Proof.
  intros Ha. unfold listen_signal. rewrite (listen_loop_conn chunks rest m Ha).
  split.
  - intros b Hf Hp. unfold handle_conn, recv_socket_data. rewrite Hf, Hp. reflexivity.
  - intros Hn. unfold handle_conn, recv_socket_data.
    rewrite (recv_loop_hang chunks [] Hn). reflexivity.
Qed.

Lemma malformed_request_crashes_listener_witness :
  address_exists mgr0 = true /\
  ((forall b, recv_loop [] [garbage_frame] = RecvFrame b -> pickle_loads b = None ->
     listen_signal [InConn [garbage_frame]; InConn [send_socket_data (request GREETING)]] mgr0 =
     ([ConnClosed], ListenRaised mgr0 (exc UnpicklingError "pickle data was truncated"))) /\
   (find_sub EOS (List.concat [garbage_frame]) = None ->
     listen_signal [InConn [garbage_frame]; InConn [send_socket_data (request GREETING)]] mgr0 =
     ([], ListenHang mgr0))) /\
  recv_loop [] [garbage_frame] = RecvFrame (bytes_of_string "garbage") /\
  pickle_loads (bytes_of_string "garbage") = None.
Proof.
  assert (Ha : address_exists mgr0 = true) by reflexivity.
  split; [exact Ha|]. split.
  - exact (malformed_request_crashes_listener mgr0 [garbage_frame]
             [InConn [send_socket_data (request GREETING)]] Ha).
  - split; vm_compute; reflexivity.
Defined.

(** ** C9 *)

(** Claim C9: in every state the listener can be serving (including while
    controllers hold), a SHUTDOWN request makes the handler stop every
    controller, send the reply, leave the loop, close the listener and
    remove the socket file. *)
Theorem shutdown_stops_and_exits (m : Manager) (chunks : list bytes) (d : SocketData)
    (rest : list ListenInput) :
  reachable m -> address_exists m = true ->
  recv_socket_data chunks = Ok d -> sd_signal d = SHUTDOWN ->
  exists m',
    listen_signal (InConn chunks :: rest) m =
      ([Sent (send_socket_data reply_ok); ConnClosed; ListenerClosed; AddressRemoved],
       ListenReturned m') /\
    (forall c, In c (controllers_of m') -> holding c = false /\ holding_executor c = false) /\
    running_thread m' = false /\ listener_open m' = false /\ address_exists m' = false.
Proof.
  intros R Ha Hr Hs.
  destruct (dispatch_shutdown (sd_config d) m (reachable_inv m R)) as (m1 & D & Q & T & A & _).
  rewrite <- Hs in D.
  exists (with_socket m1 false false). split.
  - unfold listen_signal. rewrite (listen_loop_conn chunks rest m Ha).
    rewrite (handle_conn_ok chunks d m m1 false Hr D).
    rewrite listen_loop_stopped. unfold listen_finish. rewrite A, Ha. reflexivity.
  - split; [exact Q|]. split; [exact T|]. split; reflexivity.
Qed.

Lemma shutdown_stops_and_exits_witness :
  existsb holding (controllers_of mgr_holding) = true /\
  (reachable mgr_holding /\ address_exists mgr_holding = true /\
   recv_socket_data [send_socket_data (request SHUTDOWN)] = Ok (request SHUTDOWN) /\
   sd_signal (request SHUTDOWN) = SHUTDOWN) /\
  exists m',
    listen_signal [InConn [send_socket_data (request SHUTDOWN)]] mgr_holding =
      ([Sent (send_socket_data reply_ok); ConnClosed; ListenerClosed; AddressRemoved],
       ListenReturned m') /\
    (forall c, In c (controllers_of m') -> holding c = false /\ holding_executor c = false) /\
    running_thread m' = false /\ listener_open m' = false /\ address_exists m' = false.
Proof.
  assert (R0 : reachable mgr0) by (apply (reach_init cfg0 2%nat); reflexivity).
  assert (R1 : reachable mgr_started).
  { apply (reach_conn mgr0 [send_socket_data (request START)]
             [Sent (send_socket_data reply_ok); ConnClosed] mgr_started R0).
    vm_compute. reflexivity. }
  assert (R : reachable mgr_holding) by exact (reachable_background idle_then_tick _ R1).
  assert (Ha : address_exists mgr_holding = true) by (vm_compute; reflexivity).
  assert (Hr := recv_request SHUTDOWN).
  split; [vm_compute; reflexivity|].
  split; [split; [exact R|split; [exact Ha|split; [exact Hr|reflexivity]]]|].
  exact (shutdown_stops_and_exits mgr_holding _ _ [] R Ha Hr eq_refl).
Defined.

(** ** C10 *)

(** Claim C10 (divergence): with no controllers thread, STOP makes
    [stop_controllers] raise [RuntimeError], and building the error reply
    then raises [ValidationError]: no reply is sent and the listener
    crashes.  SHUTDOWN skips [stop_controllers], replies without error and
    shuts the listener down. *)
Theorem stop_shutdown_when_not_running (m : Manager) (rest : list ListenInput) :
  running_thread m = false -> address_exists m = true ->
  dispatch STOP None m =
    DispatchError m (exc RuntimeError "Controllers are not running. Please start them first.") /\
  listen_signal (InConn [send_socket_data (request STOP)] :: rest) m =
    ([ConnClosed],
     ListenRaised m (exc ValidationError
       "1 validation error for SocketData error: Input should be an instance of Exception")) /\
  dispatch SHUTDOWN None m = DispatchOk m false /\
  listen_signal (InConn [send_socket_data (request SHUTDOWN)] :: rest) m =
    ([Sent (send_socket_data reply_ok); ConnClosed; ListenerClosed; AddressRemoved],
     ListenReturned (with_socket m false false)).
Proof.
  intros Et Ha.
  assert (Ds : dispatch STOP None m =
    DispatchError m (exc RuntimeError "Controllers are not running. Please start them first."))
    by (cbn [dispatch]; unfold stop_controllers; rewrite Et; reflexivity).
  assert (Dh : dispatch SHUTDOWN None m = DispatchOk m false)
    by (cbn [dispatch]; rewrite Et; reflexivity).
  split; [exact Ds|]. split.
  - unfold listen_signal. rewrite (listen_loop_conn _ rest m Ha).
    rewrite (handle_conn_error _ (request STOP) m m _ (recv_request STOP) Ds). reflexivity.
  - split; [exact Dh|].
    unfold listen_signal. rewrite (listen_loop_conn _ rest m Ha).
    rewrite (handle_conn_ok _ (request SHUTDOWN) m m false (recv_request SHUTDOWN) Dh).
    rewrite listen_loop_stopped. unfold listen_finish. rewrite Ha. reflexivity.
Qed.

Lemma stop_shutdown_when_not_running_witness :
  (running_thread mgr0 = false /\ address_exists mgr0 = true) /\
  dispatch STOP None mgr0 =
    DispatchError mgr0 (exc RuntimeError "Controllers are not running. Please start them first.") /\
  listen_signal [InConn [send_socket_data (request STOP)]] mgr0 =
    ([ConnClosed],
     ListenRaised mgr0 (exc ValidationError
       "1 validation error for SocketData error: Input should be an instance of Exception")) /\
  dispatch SHUTDOWN None mgr0 = DispatchOk mgr0 false /\
  listen_signal [InConn [send_socket_data (request SHUTDOWN)]] mgr0 =
    ([Sent (send_socket_data reply_ok); ConnClosed; ListenerClosed; AddressRemoved],
     ListenReturned (with_socket mgr0 false false)).
Proof.
  assert (Et : running_thread mgr0 = false) by reflexivity.
  assert (Ha : address_exists mgr0 = true) by reflexivity.
  split; [split; [exact Et|exact Ha]|].
  exact (stop_shutdown_when_not_running mgr0 [] Et Ha).
Defined.

End ManagerClaims.

(* ------------------------------------------------------------------ *)
(** * [pickle.loads] inverts [pickle.dumps] *)

Module PickleFacts.
Import Core.
Local Open Scope Z_scope.

Lemma le_bytes_length (k : nat) (z : Z) : List.length (le_bytes k z) = k.
Proof. revert z; induction k as [|k IH]; intros z; cbn; [reflexivity|now rewrite IH]. Qed.

Lemma le_value_le_bytes (k : nat) (z : Z) :
  le_value (le_bytes k z) = z mod 2 ^ (8 * Z.of_nat k).
Proof.
  revert z; induction k as [|k IH]; intros z.
  - cbn. rewrite Z.mod_1_r. reflexivity.
  - cbn [le_bytes le_value]. rewrite IH.
    change 255 with (Z.ones 8). rewrite Z.land_ones by lia.
    rewrite Z.shiftr_div_pow2 by lia.
    replace (8 * Z.of_nat (S k)) with (8 + 8 * Z.of_nat k) by lia.
    rewrite Z.pow_add_r by lia. change (2 ^ 8) with 256.
    assert (HM : 0 < 2 ^ (8 * Z.of_nat k)) by (apply Z.pow_pos_nonneg; lia).
    set (M := 2 ^ (8 * Z.of_nat k)) in *.
    apply Z.mod_unique with (q := z / 256 / M).
    + left. pose proof (Z.mod_pos_bound z 256 ltac:(lia)).
      pose proof (Z.mod_pos_bound (z / 256) M HM). nia.
    + pose proof (Z.div_mod z 256 ltac:(lia)).
      pose proof (Z.div_mod (z / 256) M ltac:(lia)). nia.
Qed.

Lemma signed_mod (bits z : Z) :
  0 < bits -> - 2 ^ (bits - 1) <= z < 2 ^ (bits - 1) ->
  signed bits (z mod 2 ^ bits) = z.
Proof.
  intros Hb Hz. unfold signed.
  assert (H2 : 2 ^ bits = 2 * 2 ^ (bits - 1))
    by (rewrite <- Z.pow_succ_r by lia; f_equal; lia).
  assert (Hp : 0 < 2 ^ (bits - 1)) by (apply Z.pow_pos_nonneg; lia).
  rewrite H2. set (h := 2 ^ (bits - 1)) in *.
  destruct (Z_le_gt_dec 0 z) as [Hn|Hn].
  - rewrite Z.mod_small by lia.
    destruct (z >=? h) eqn:E; [apply Z.geb_le in E; lia|reflexivity].
  - replace (z mod (2 * h)) with (z + 2 * h)
      by (apply Z.mod_unique with (q := -1); lia).
    destruct (z + 2 * h >=? h) eqn:E; [lia|rewrite Z.geb_leb in E; apply Z.leb_gt in E; lia].
Qed.

Lemma prefixb_refl (p : bytes) : prefixb p p = true.
Proof. induction p as [|a p IH]; cbn; [reflexivity|now rewrite Z.eqb_refl, IH]. Qed.

Lemma expect_app (p r : bytes) : expect p (p ++ r) = Some (tt, r).
Proof.
  unfold expect. rewrite (FramingFacts.prefixb_app p p r (prefixb_refl p)).
  f_equal. f_equal. induction p as [|a p IH]; [reflexivity|exact IH].
Qed.

Lemma take_app (n : nat) (b r : bytes) :
  List.length b = n -> take n (b ++ r) = Some (b, r).
Proof.
  intros <-. unfold take. rewrite length_app.
  replace (List.length b <=? List.length b + List.length r)%nat with true
    by (symmetry; apply Nat.leb_le; lia).
  f_equal. f_equal; induction b as [|a b IH]; cbn; congruence.
Qed.

Lemma byte_cons (x : Z) (t : bytes) : byte (x :: t) = Some (x, t).
Proof. reflexivity. Qed.

Lemma bind_some {A B} (m : parser A) (k : A -> parser B) (s : bytes) (a : A) (s' : bytes) :
  m s = Some (a, s') -> bind m k s = k a s'.
Proof. intros H. unfold bind. rewrite H. reflexivity. Qed.

Lemma object_begin_app (mn n : string) (r : bytes) :
  object_begin mn n (pickle_global mn n ++ [op_MARK] ++ r) = Some (tt, r).
Proof. unfold object_begin. rewrite app_assoc. apply expect_app. Qed.

Lemma object_end_app (r : bytes) : object_end ([op_TUPLE; op_REDUCE] ++ r) = Some (tt, r).
Proof. apply expect_app. Qed.

Lemma pickle_object_app (mn n : string) (fields : list bytes) (r : bytes) :
  pickle_object mn n fields ++ r =
  pickle_global mn n ++ [op_MARK] ++ List.concat fields ++ [op_TUPLE; op_REDUCE] ++ r.
Proof. unfold pickle_object. now rewrite <- !app_assoc. Qed.

(** One step of a parser whose first part is known to succeed. *)
Ltac pstep lem :=
  erewrite bind_some by (apply lem; first [apply le_bytes_length | assumption | lia]); cbv beta.

Lemma bit_length_spec (v : Z) : 0 <= v -> 0 <= bit_length v /\ v < 2 ^ bit_length v.
Proof.
  intros Hv. unfold bit_length. destruct (Z.eqb_spec v 0) as [->|Hn].
  - split; [lia|reflexivity].
  - destruct (Z.log2_spec v ltac:(lia)) as [_ H]. pose proof (Z.log2_nonneg v).
    split; [lia|]. rewrite Z.add_1_r. exact H.
Qed.

Lemma long_nbytes_range (z : Z) :
  1 <= long_nbytes z /\ - 2 ^ (8 * long_nbytes z - 1) <= z < 2 ^ (8 * long_nbytes z - 1).
Proof.
  unfold long_nbytes.
  set (v := if 0 <=? z then z else - z - 1).
  assert (Hv : 0 <= v /\ (0 <= z -> v = z) /\ (z < 0 -> v = - z - 1))
    by (unfold v; destruct (Z.leb_spec 0 z); lia).
  destruct (bit_length_spec v (proj1 Hv)) as [B1 B2].
  set (b := bit_length v) in *.
  assert (Hd : 0 <= b / 8) by (apply Z.div_pos; lia).
  assert (Hm := Z.mod_pos_bound b 8 ltac:(lia)).
  assert (He := Z.div_mod b 8 ltac:(lia)).
  assert (Hp : 2 ^ b <= 2 ^ (8 * (b / 8 + 1) - 1)) by (apply Z.pow_le_mono_r; lia).
  assert (Hb : 0 < 2 ^ b) by (apply Z.pow_pos_nonneg; lia).
  split; [lia|]. destruct (Z.leb_spec 0 z); lia.
Qed.

Lemma decode_long_le_bytes (z n : Z) :
  1 <= n -> - 2 ^ (8 * n - 1) <= z < 2 ^ (8 * n - 1) ->
  decode_long (le_bytes (Z.to_nat n) z) = z.
Proof.
  intros Hn Hz. unfold decode_long.
  destruct (le_bytes (Z.to_nat n) z) eqn:E.
  - apply (f_equal (@List.length Z)) in E. rewrite le_bytes_length in E. cbn in E. lia.
  - rewrite <- E, le_bytes_length, le_value_le_bytes, Z2Nat.id by lia.
    apply signed_mod; lia.
Qed.

Lemma unpickle_int_app (z : Z) (r : bytes) :
  int_picklable z = true -> unpickle_int (pickle_int z ++ r) = Some (z, r).
Proof.
  intros H. unfold int_picklable in H. apply Z.ltb_lt in H.
  destruct (long_nbytes_range z) as [N1 N2].
  unfold pickle_int.
  destruct ((0 <=? z) && (z <? 256)) eqn:C1; [reflexivity|].
  destruct ((0 <=? z) && (z <? 65536)) eqn:C2.
  { apply andb_prop in C2 as [A B]. apply Z.leb_le in A. apply Z.ltb_lt in B.
    change ((op_BININT2 :: ?x) ++ r) with (op_BININT2 :: (x ++ r)).
    unfold unpickle_int. pstep byte_cons.
    change (op_BININT2 =? op_BININT1) with false. rewrite Z.eqb_refl. cbv iota.
    pstep (take_app 2). unfold ret. rewrite le_value_le_bytes.
    rewrite Z.mod_small by (cbn -[Z.pow]; lia). reflexivity. }
  destruct ((- 2 ^ 31 <=? z) && (z <? 2 ^ 31)) eqn:C3.
  { apply andb_prop in C3 as [A B]. apply Z.leb_le in A. apply Z.ltb_lt in B.
    change ((op_BININT :: ?x) ++ r) with (op_BININT :: (x ++ r)).
    unfold unpickle_int. pstep byte_cons.
    change (op_BININT =? op_BININT1) with false. change (op_BININT =? op_BININT2) with false.
    rewrite Z.eqb_refl. cbv iota.
    pstep (take_app 4). unfold ret. rewrite le_value_le_bytes. change (8 * Z.of_nat 4) with 32.
    rewrite (signed_mod 32 z) by (cbn -[Z.pow]; lia). reflexivity. }
  cbv zeta. destruct (long_nbytes z <? 256) eqn:C4.
  - apply Z.ltb_lt in C4.
    change ((op_LONG1 :: ?n :: ?x) ++ r) with (op_LONG1 :: n :: (x ++ r)).
    unfold unpickle_int. pstep byte_cons.
    change (op_LONG1 =? op_BININT1) with false. change (op_LONG1 =? op_BININT2) with false.
    change (op_LONG1 =? op_BININT) with false. rewrite Z.eqb_refl. cbv iota.
    pstep byte_cons. pstep (take_app (Z.to_nat (long_nbytes z))). unfold ret.
    rewrite (decode_long_le_bytes z (long_nbytes z) N1 N2). reflexivity.
  - change ((op_LONG4 :: ?x) ++ r) with (op_LONG4 :: (x ++ r)). rewrite <- app_assoc.
    unfold unpickle_int. pstep byte_cons.
    change (op_LONG4 =? op_BININT1) with false. change (op_LONG4 =? op_BININT2) with false.
    change (op_LONG4 =? op_BININT) with false. change (op_LONG4 =? op_LONG1) with false.
    rewrite Z.eqb_refl. cbv iota.
    pstep (take_app 4). cbv zeta. rewrite le_value_le_bytes. change (8 * Z.of_nat 4) with 32.
    rewrite (signed_mod 32 (long_nbytes z)) by (cbn -[Z.pow]; lia).
    replace (long_nbytes z <? 0) with false by (symmetry; apply Z.ltb_ge; lia).
    pstep (take_app (Z.to_nat (long_nbytes z))). unfold ret.
    rewrite (decode_long_le_bytes z (long_nbytes z) N1 N2). reflexivity.
Qed.

Lemma unpickle_float_app (q : Q) (r : bytes) :
  float_picklable q = true -> unpickle_float (pickle_float q ++ r) = Some (q, r).
Proof.
  intros H. apply andb_prop in H as [Hn Hd].
  unfold unpickle_float, pickle_float.
  change (op_BINFLOAT :: ?x) with ([op_BINFLOAT] ++ x). rewrite <- !app_assoc.
  pstep expect_app. pstep unpickle_int_app. pstep unpickle_int_app.
  destruct q; reflexivity.
Qed.

Lemma string_of_bytes_of_string (s : string) : string_of_bytes (bytes_of_string s) = s.
Proof.
  unfold string_of_bytes, bytes_of_string. rewrite map_map.
  erewrite map_ext; [|intros c; rewrite Nat2Z.id; apply ascii_nat_embedding].
  rewrite map_id. apply string_of_list_ascii_of_string.
Qed.

Lemma unpickle_str_app (s : string) (r : bytes) :
  str_picklable s = true -> unpickle_str (pickle_str s ++ r) = Some (s, r).
Proof.
  intros H. unfold str_picklable in H. apply Z.ltb_lt in H.
  unfold pickle_str, unpickle_str.
  set (b := bytes_of_string s) in *.
  destruct (Z.of_nat (List.length b) <? 256) eqn:E.
  - change ((op_SHORT_BINUNICODE :: ?n :: b) ++ r) with (op_SHORT_BINUNICODE :: n :: (b ++ r)).
    pstep byte_cons. rewrite Z.eqb_refl.
    pstep byte_cons.
    pstep (take_app (Z.to_nat (Z.of_nat (List.length b)))).
    unfold ret. subst b. rewrite string_of_bytes_of_string. reflexivity.
  - destruct (Z.of_nat (List.length b) <? 2 ^ 32) eqn:E2.
    + apply Z.ltb_lt in E2.
      change ((op_BINUNICODE :: ?x) ++ r) with (op_BINUNICODE :: (x ++ r)).
      pstep byte_cons. change (op_BINUNICODE =? op_SHORT_BINUNICODE) with false.
      rewrite Z.eqb_refl. cbv iota. rewrite <- app_assoc.
      pstep (take_app 4).
      rewrite le_value_le_bytes. change (8 * Z.of_nat 4) with 32.
      rewrite Z.mod_small by lia.
      pstep (take_app (Z.to_nat (Z.of_nat (List.length b)))).
      unfold ret. subst b. rewrite string_of_bytes_of_string. reflexivity.
    + change ((op_BINUNICODE8 :: ?x) ++ r) with (op_BINUNICODE8 :: (x ++ r)).
      pstep byte_cons. change (op_BINUNICODE8 =? op_SHORT_BINUNICODE) with false.
      change (op_BINUNICODE8 =? op_BINUNICODE) with false.
      rewrite Z.eqb_refl. cbv iota. rewrite <- app_assoc.
      pstep (take_app 8).
      rewrite le_value_le_bytes. change (8 * Z.of_nat 8) with 64.
      rewrite Z.mod_small by lia.
      pstep (take_app (Z.to_nat (Z.of_nat (List.length b)))).
      unfold ret. subst b. rewrite string_of_bytes_of_string. reflexivity.
Qed.

Lemma unpickle_signal_app (sg : Signal) (r : bytes) :
  unpickle_signal (pickle_signal sg ++ r) = Some (sg, r).
Proof.
  unfold unpickle_signal, pickle_signal. rewrite pickle_object_app.
  cbn [List.concat]. rewrite app_nil_r.
  pstep object_begin_app.
  change ([op_BININT1; signal_value sg] ++ ?x) with ([op_BININT1] ++ signal_value sg :: x).
  pstep expect_app. pstep byte_cons. pstep object_end_app.
  destruct sg; reflexivity.
Qed.

Lemma unpickle_alg_config_app (a : AlgorithmConfig) (r : bytes) :
  alg_config_picklable a = true -> unpickle_alg_config (pickle_alg_config a ++ r) = Some (a, r).
Proof.
  intros H. unfold alg_config_picklable in H.
  repeat match type of H with (_ && _) = true => apply andb_prop in H as [H ?] end.
  unfold unpickle_alg_config, pickle_alg_config. rewrite pickle_object_app.
  cbn [List.concat]. rewrite ?app_nil_r, <- ?app_assoc.
  pstep object_begin_app.
  do 5 (pstep unpickle_float_app). pstep unpickle_int_app. pstep object_end_app.
  destruct a; reflexivity.
Qed.

Lemma unpickle_config_app (c : ControllerConfig) (r : bytes) :
  config_picklable c = true -> unpickle_config (pickle_config c ++ r) = Some (c, r).
Proof.
  intros H. unfold config_picklable in H.
  repeat match type of H with (_ && _) = true => apply andb_prop in H as [H ?] end.
  unfold unpickle_config, pickle_config. rewrite pickle_object_app.
  cbn [List.concat]. rewrite ?app_nil_r, <- ?app_assoc.
  pstep object_begin_app.
  do 4 (pstep unpickle_float_app). pstep unpickle_alg_config_app. pstep object_end_app.
  destruct c; reflexivity.
Qed.

Lemma unpickle_exc_of_app (e : PyExc) (r : bytes) :
  str_picklable (exc_msg e) = true ->
  unpickle_exc_of (exc_class e) (pickle_exc e ++ r) = Some (e, r).
Proof.
  intros H. unfold unpickle_exc_of, pickle_exc. rewrite pickle_object_app.
  cbn [List.concat]. rewrite ?app_nil_r, <- ?app_assoc.
  pstep object_begin_app. pstep unpickle_str_app. pstep object_end_app.
  destruct e; reflexivity.
Qed.

Lemma orelse_l {A} (p1 p2 : parser A) (s : bytes) (x : A * bytes) :
  p1 s = Some x -> orelse p1 p2 s = Some x.
Proof. intros H. unfold orelse. now rewrite H. Qed.

Lemma orelse_r {A} (p1 p2 : parser A) (s : bytes) :
  p1 s = None -> orelse p1 p2 s = p2 s.
Proof. intros H. unfold orelse. now rewrite H. Qed.

(** A pickled exception of one class is refused by the parser of another. *)
Lemma unpickle_exc_of_other (c : ExcClass) (e : PyExc) (r : bytes) :
  c <> exc_class e -> unpickle_exc_of c (pickle_exc e ++ r) = None.
Proof.
  intros Hc. destruct e as [c' msg]. cbn [exc_class] in Hc.
  unfold unpickle_exc_of, pickle_exc, bind, object_begin, expect.
  rewrite pickle_object_app. cbn [exc_class].
  destruct c, c'; try (exfalso; apply Hc; reflexivity); reflexivity.
Qed.

Lemma unpickle_exc_app (e : PyExc) (r : bytes) :
  str_picklable (exc_msg e) = true -> unpickle_exc (pickle_exc e ++ r) = Some (e, r).
Proof.
  intros H. unfold unpickle_exc.
  assert (Hok := unpickle_exc_of_app e r H).
  destruct e as [c msg]; destruct c; cbn [exc_class] in Hok;
    repeat first [ apply orelse_l; exact Hok
                 | exact Hok
                 | rewrite orelse_r by (apply unpickle_exc_of_other; discriminate) ].
Qed.

Lemma unpickle_option_none {A} (p : parser A) (r : bytes) :
  unpickle_option p ([op_NONE] ++ r) = Some (None, r).
Proof. unfold unpickle_option, orelse. rewrite (bind_some _ _ _ tt r (expect_app _ _)). reflexivity. Qed.

Lemma unpickle_option_some {A} (p : parser A) (s : bytes) (a : A) (r : bytes) :
  (forall t, s <> op_NONE :: t) ->
  p s = Some (a, r) -> unpickle_option p s = Some (Some a, r).
Proof.
  intros Hs H. unfold unpickle_option. rewrite orelse_r.
  - unfold bind, ret. now rewrite H.
  - unfold bind, expect. destruct s as [|x t]; [reflexivity|].
    cbn [prefixb]. destruct (Z.eqb_spec op_NONE x) as [<-|]; [|reflexivity].
    exfalso. exact (Hs t eq_refl).
Qed.

Lemma pickle_object_head (mn n : string) (fields : list bytes) (r : bytes) (t : bytes) :
  pickle_object mn n fields ++ r <> op_NONE :: t.
Proof. unfold pickle_object, pickle_global. cbn. discriminate. Qed.

Lemma unpickle_socket_data_app (d : SocketData) (r : bytes) :
  picklable d = true -> unpickle_socket_data (pickle_dumps d ++ r) = Some (d, r).
Proof.
  intros H. unfold picklable in H. apply andb_prop in H as [Hc He].
  unfold unpickle_socket_data, pickle_dumps. rewrite <- !app_assoc, pickle_object_app.
  cbn [List.concat]. rewrite ?app_nil_r, <- ?app_assoc.
  pstep expect_app. pstep object_begin_app. pstep unpickle_signal_app.
  destruct (sd_config d) as [c|] eqn:Ec.
  - erewrite bind_some
      by (apply unpickle_option_some;
          [intros t; apply pickle_object_head|apply unpickle_config_app; exact Hc]).
    cbv beta.
    destruct (sd_error d) as [e|] eqn:Ee.
    + erewrite bind_some
        by (apply unpickle_option_some;
            [intros t; apply pickle_object_head|apply unpickle_exc_app; exact He]).
      cbv beta. pstep object_end_app. pstep expect_app.
      destruct d; cbn in *; subst; reflexivity.
    + cbn [pickle_option]. pstep (unpickle_option_none (A := PyExc)). pstep object_end_app. pstep expect_app.
      destruct d; cbn in *; subst; reflexivity.
  - cbn [pickle_option]. pstep (unpickle_option_none (A := ControllerConfig)).
    destruct (sd_error d) as [e|] eqn:Ee.
    + erewrite bind_some
        by (apply unpickle_option_some;
            [intros t; apply pickle_object_head|apply unpickle_exc_app; exact He]).
      cbv beta. pstep object_end_app. pstep expect_app.
      destruct d; cbn in *; subst; reflexivity.
    + cbn [pickle_option]. pstep (unpickle_option_none (A := PyExc)). pstep object_end_app. pstep expect_app.
      destruct d; cbn in *; subst; reflexivity.
Qed.

Lemma pickle_loads_dumps (d : SocketData) :
  picklable d = true -> pickle_loads (pickle_dumps d) = Some d.
Proof.
  intros H. unfold pickle_loads. rewrite <- (app_nil_r (pickle_dumps d)).
  now rewrite (unpickle_socket_data_app d [] H).
Qed.

End PickleFacts.

Module CodecClaims.
Import Core Examples.

(** ** C3 *)

(** Claim C3 (as amended): a message that [pickle.dumps] serialises (it
    refuses only ints of [2^31] bytes or more) and whose pickled bytes do
    not contain the sentinel [END_OF_SOCKET_DATA] is received intact,
    however the stream [send_socket_data] wrote (and whatever follows it)
    is cut into [recv] chunks. *)
Theorem framed_roundtrip_without_sentinel (d : SocketData) (chunks : list bytes) (rest : bytes) :
  picklable d = true ->
  find_sub EOS (pickle_dumps d) = None ->
  List.concat chunks = send_socket_data d ++ rest ->
  recv_socket_data chunks = Ok d.
Proof.
  intros Hf Hn Hc. unfold recv_socket_data.
  rewrite (FramingFacts.recv_loop_frame (pickle_dumps d) rest chunks [] Hn eq_refl).
  - rewrite (PickleFacts.pickle_loads_dumps d Hf). reflexivity.
  - rewrite app_nil_l, Hc. unfold send_socket_data. now rewrite <- app_assoc.
Qed.

Lemma framed_roundtrip_without_sentinel_witness :
  (picklable start_with_cfg0 = true /\
   find_sub EOS (pickle_dumps start_with_cfg0) = None /\
   List.concat [firstn 100 (send_socket_data start_with_cfg0);
                skipn 100 (send_socket_data start_with_cfg0)] =
   send_socket_data start_with_cfg0 ++ [] /\
   recv_socket_data [firstn 100 (send_socket_data start_with_cfg0);
                     skipn 100 (send_socket_data start_with_cfg0)] = Ok start_with_cfg0) /\
  (picklable start_wide = true /\
   find_sub EOS (pickle_dumps start_wide) = None /\
   recv_socket_data [send_socket_data start_wide ++ bytes_of_string "next"] = Ok start_wide).
Proof.
  split.
  - assert (Hf : picklable start_with_cfg0 = true) by (vm_compute; reflexivity).
    assert (Hn : find_sub EOS (pickle_dumps start_with_cfg0) = None) by (vm_compute; reflexivity).
    assert (Hc : List.concat [firstn 100 (send_socket_data start_with_cfg0);
                              skipn 100 (send_socket_data start_with_cfg0)] =
                 send_socket_data start_with_cfg0 ++ [])
      by (cbn [List.concat]; rewrite !app_nil_r; apply firstn_skipn).
    split; [exact Hf|split; [exact Hn|split; [exact Hc|]]].
    exact (framed_roundtrip_without_sentinel start_with_cfg0 _ [] Hf Hn Hc).
  - assert (Hf : picklable start_wide = true) by (vm_compute; reflexivity).
    assert (Hn : find_sub EOS (pickle_dumps start_wide) = None) by (vm_compute; reflexivity).
    assert (Hc : List.concat [send_socket_data start_wide ++ bytes_of_string "next"] =
                 send_socket_data start_wide ++ bytes_of_string "next")
      by (cbn [List.concat]; apply app_nil_r).
    split; [exact Hf|split; [exact Hn|]].
    exact (framed_roundtrip_without_sentinel start_wide _ _ Hf Hn Hc).
Defined.

(** Claim C3 fails as stated: a reply whose error text is the sentinel
    itself (a message [pickle.dumps] serialises) is cut at the sentinel by
    the receiver, and [pickle.loads] of the truncated stream raises. *)
Lemma sentinel_in_error_counterexample :
  picklable msg_with_sentinel = true /\
  recv_socket_data [send_socket_data msg_with_sentinel] =
    Raise (exc UnpicklingError "pickle data was truncated").
Proof. split; vm_compute; reflexivity. Qed.

End CodecClaims.


(* ------------------------------------------------------------------ *)
(** * Further properties of the controller: storage size, history,
    metrics, hold/release *)

Module HistoryFacts.
Import Core Controller Examples Metrics ControllerFacts.
Local Open Scope Q_scope.

Lemma py_int_nonneg (q : Q) : 0 <= q -> py_int q = Qfloor q.
Proof. intros H. unfold py_int. apply Qle_bool_iff in H. rewrite H. reflexivity. Qed.

Lemma storage_arg (gb : Q) : gb * inject_Z (1024 * 1024 * 1024) / 8 == gb * 134217728.
Proof. unfold Qdiv. rewrite <- Qmult_assoc. apply Qmult_comp; reflexivity. Qed.

Lemma storage_size_floor (gb : Q) :
  0 <= gb -> py_int (gb * inject_Z (1024 * 1024 * 1024) / 8) = Qfloor (gb * 134217728).
Proof.
  intros H. rewrite py_int_nonneg.
  - apply Qfloor_comp, storage_arg.
  - rewrite storage_arg. apply Qmult_le_0_compat; [exact H|discriminate].
Qed.

Lemma storage_overflow_iff (gb : Q) :
  0 <= gb ->
  float_overflows (gb * inject_Z (1024 * 1024 * 1024)) = true <-> inject_Z (2 ^ 994 - 2 ^ 940) <= gb.
Proof.
  intros H. unfold float_overflows. rewrite Qle_bool_iff.
  rewrite Qabs_pos by (apply Qmult_le_0_compat; [exact H|discriminate]).
  replace (2 ^ 1024 - 2 ^ 970)%Z with ((2 ^ 994 - 2 ^ 940) * (1024 * 1024 * 1024))%Z
    by reflexivity.
  rewrite inject_Z_mult. apply Qmult_le_r. reflexivity.
Qed.

(** [compute_storage_size(gb)] for [gb >= 0] raises [OverflowError] exactly
    when [gb * 1024 ** 3] overflows to [inf], i.e. from
    [gb >= 2^994 - 2^940] on; below that bound it is the number of 8-byte
    doubles in [gb] GiB rounded down: non-negative, within one of
    [gb * 2^27], and monotone in [gb]. *)
Theorem compute_storage_size_floor (gb1 gb2 : Q) :
  0 <= gb1 -> gb1 <= gb2 ->
  (compute_storage_size gb1 = Raise (exc OverflowError "cannot convert float infinity to integer")
     <-> inject_Z (2 ^ 994 - 2 ^ 940) <= gb1) /\
  (gb2 < inject_Z (2 ^ 994 - 2 ^ 940) ->
     exists n1 n2,
       compute_storage_size gb1 = Ok n1 /\ compute_storage_size gb2 = Ok n2 /\
       (0 <= n1)%Z /\ inject_Z n1 <= gb1 * 134217728 /\ gb1 * 134217728 < inject_Z n1 + 1 /\
       (n1 <= n2)%Z).
Proof.
  intros H1 H12.
  assert (H2 : 0 <= gb2) by (apply Qle_trans with gb1; assumption).
  split.
  - rewrite <- (storage_overflow_iff gb1 H1). unfold compute_storage_size.
    destruct (float_overflows _); split; intros K; congruence.
  - intros Hlt.
    assert (F : forall gb, 0 <= gb -> gb < inject_Z (2 ^ 994 - 2 ^ 940) ->
                compute_storage_size gb = Ok (Qfloor (gb * 134217728))).
    { intros gb H Hb. unfold compute_storage_size.
      destruct (float_overflows _) eqn:E.
      - apply (storage_overflow_iff gb H) in E. exfalso. apply (Qlt_not_le _ _ Hb E).
      - rewrite (storage_size_floor gb H). reflexivity. }
    exists (Qfloor (gb1 * 134217728)), (Qfloor (gb2 * 134217728)).
    split; [apply F; [exact H1|apply Qle_lt_trans with gb2; assumption]|].
    split; [apply F; assumption|].
    split; [|split; [|split]].
    + rewrite <- (Qfloor_Z 0). apply Qfloor_resp_le.
      apply Qmult_le_0_compat; [exact H1|discriminate].
    + apply Qfloor_le.
    + eapply Qlt_le_trans; [apply Qlt_floor|]. rewrite inject_Z_plus. apply Qle_refl.
    + apply Qfloor_resp_le. apply Qmult_le_compat_r; [exact H12|discriminate].
Qed.

Lemma compute_storage_size_floor_witness :
  (compute_storage_size (inject_Z (2 ^ 1000)) =
     Raise (exc OverflowError "cannot convert float infinity to integer")) /\
  exists n1 n2,
    compute_storage_size (1 # 2) = Ok n1 /\ compute_storage_size 1 = Ok n2 /\
    (0 <= n1)%Z /\ inject_Z n1 <= (1 # 2) * 134217728 /\ (1 # 2) * 134217728 < inject_Z n1 + 1 /\
    (n1 <= n2)%Z.
Proof.
  split.
  - assert (A : 0 <= inject_Z (2 ^ 1000)) by (apply Qle_bool_iff; vm_compute; reflexivity).
    apply (proj1 (compute_storage_size_floor (inject_Z (2 ^ 1000)) (inject_Z (2 ^ 1000))
                    A (Qle_refl _))).
    apply Qle_bool_iff. vm_compute. reflexivity.
  - assert (A : 0 <= 1 # 2) by (vm_compute; discriminate).
    assert (B : 1 # 2 <= 1) by (vm_compute; discriminate).
    apply (proj2 (compute_storage_size_floor (1 # 2) 1 A B)).
    vm_compute. reflexivity.
Defined.

(** Appending to a deque whose items are the last [n] of [l]. *)
Lemma deque_fold_lastn {A} (xs l : list A) (n : nat) :
  fold_left deque_append xs {| dq_items := skipn (List.length l - n) l; dq_maxlen := n |} =
  {| dq_items := skipn (List.length (l ++ xs) - n) (l ++ xs); dq_maxlen := n |}.
Proof.
  revert l; induction xs as [|x xs IH]; intros l; cbn [fold_left].
  - rewrite app_nil_r. reflexivity.
  - assert (E : deque_append {| dq_items := skipn (List.length l - n) l; dq_maxlen := n |} x =
                {| dq_items := skipn (List.length (l ++ [x]) - n) (l ++ [x]); dq_maxlen := n |}).
    { unfold deque_append; cbn [dq_items dq_maxlen]. f_equal.
      assert (S1 : skipn (List.length l - n) l ++ [x] = skipn (List.length l - n) (l ++ [x])).
      { rewrite skipn_app. replace (List.length l - n - List.length l)%nat with 0%nat by lia.
        reflexivity. }
      rewrite S1, skipn_skipn, length_skipn, !length_app. cbn [List.length]. f_equal. lia. }
    rewrite E, IH, <- app_assoc. reflexivity.
Qed.

Lemma inspect_fold_queue (samples : list GPUSnapshot) (c : GPUController) :
  inspect_stop_signal c = false ->
  gpu_snapshot_queue (fold_left inspect_step samples c) =
  fold_left deque_append samples (gpu_snapshot_queue c).
Proof.
  revert c; induction samples as [|s samples IH]; intros c Hs; cbn [fold_left]; [reflexivity|].
  unfold inspect_step at 2. rewrite Hs. apply IH. exact Hs.
Qed.

(** After [reset_history], the history of a controller whose [inspect]
    thread runs holds exactly the most recent [maxlen] samples, oldest
    first ([maxlen = int(wait_minutes * 60)]). *)
Theorem history_keeps_latest (c : GPUController) (samples : list GPUSnapshot) :
  inspect_stop_signal c = false ->
  dq_items (gpu_snapshot_queue (fold_left inspect_step samples (reset_history c))) =
  skipn (List.length samples - dq_maxlen (gpu_snapshot_queue c)) samples.
Proof.
  intros Hs. rewrite inspect_fold_queue by exact Hs.
  change (gpu_snapshot_queue (reset_history c))
    with {| dq_items := skipn (List.length (@nil GPUSnapshot) - dq_maxlen (gpu_snapshot_queue c)) (@nil GPUSnapshot);
            dq_maxlen := dq_maxlen (gpu_snapshot_queue c) |}.
  rewrite deque_fold_lastn. reflexivity.
Qed.

Lemma history_keeps_latest_witness :
  inspect_stop_signal (new_controller cfg0 0) = false /\
  dq_items (gpu_snapshot_queue
    (fold_left inspect_step (map (fun k => {| used_mem := inject_Z (Z.of_nat k); free_mem := 0; util := 0 |})
                                 (seq 0 8)) (reset_history (new_controller cfg0 0)))) =
  skipn (List.length (map (fun k => {| used_mem := inject_Z (Z.of_nat k); free_mem := 0; util := 0 |})
                          (seq 0 8)) - dq_maxlen (gpu_snapshot_queue (new_controller cfg0 0)))
        (map (fun k => {| used_mem := inject_Z (Z.of_nat k); free_mem := 0; util := 0 |}) (seq 0 8)).
Proof.
  assert (H : inspect_stop_signal (new_controller cfg0 0) = false) by reflexivity.
  split; [exact H|]. exact (history_keeps_latest _ _ H).
Defined.

(** Once [inspect_stop] is set, samples leave the controller unchanged. *)
Lemma inspect_stopped_fold (samples : list GPUSnapshot) (c : GPUController) :
  inspect_stop_signal c = true -> fold_left inspect_step samples c = c.
Proof.
  revert c; induction samples as [|s samples IH]; intros c Hs; cbn [fold_left]; [reflexivity|].
  unfold inspect_step at 2. rewrite Hs. apply IH. exact Hs.
Qed.

(** On a controller that is not holding, [start_holding] succeeds, a
    second [start_holding] raises, and [stop_holding] then gives back the
    controller as it was (the [stop_signal] event, read only by the hold
    thread and cleared by [start_holding], is not part of the model). *)
Theorem start_stop_holding_roundtrip (c : GPUController) :
  holding c = false -> holding_executor c = false ->
  exists c1, start_holding c = Ok c1 /\ holding c1 = true /\
    start_holding c1 = Raise (exc RuntimeError "GPUHolder is already running") /\
    stop_holding c1 = Ok c.
Proof.
  destruct c; cbn; intros -> ->. eexists; repeat split.
Qed.

Lemma start_stop_holding_roundtrip_witness :
  (holding ctl_full = false /\ holding_executor ctl_full = false) /\
  exists c1, start_holding ctl_full = Ok c1 /\ holding c1 = true /\
    start_holding c1 = Raise (exc RuntimeError "GPUHolder is already running") /\
    stop_holding c1 = Ok ctl_full.
Proof.
  assert (H1 : holding ctl_full = false) by reflexivity.
  assert (H2 : holding_executor ctl_full = false) by reflexivity.
  split; [split; [exact H1|exact H2]|]. exact (start_stop_holding_roundtrip ctl_full H1 H2).
Defined.

Lemma fold_min_spec (t : list Q) (x : Q) :
  (forall y, In y (x :: t) -> fold_left (fun m y => if Qltb y m then y else m) t x <= y) /\
  In (fold_left (fun m y => if Qltb y m then y else m) t x) (x :: t).
Proof.
  revert x; induction t as [|y t IH]; intros x; cbn [fold_left].
  - split; [intros z [<-|[]]; apply Qle_refl | left; reflexivity].
  - destruct (IH (if Qltb y x then y else x)) as [H1 H2].
    set (F := fold_left _ t _) in *. split.
    + intros z Hz. destruct (Qltb y x) eqn:E.
      * apply Qltb_iff in E. destruct Hz as [<-|[<-|Hz]].
        -- apply Qle_trans with y; [apply H1; left; reflexivity|apply Qlt_le_weak; exact E].
        -- apply H1; left; reflexivity.
        -- apply H1; right; exact Hz.
      * apply Qltb_false in E. destruct Hz as [<-|[<-|Hz]].
        -- apply H1; left; reflexivity.
        -- apply Qle_trans with x; [apply H1; left; reflexivity|exact E].
        -- apply H1; right; exact Hz.
    + destruct H2 as [H2|H2].
      * destruct (Qltb y x); rewrite <- H2; simpl; auto.
      * simpl; auto.
Qed.

(** [get_history_metric(name, t)]: on an empty history "avg" raises
    [ZeroDivisionError] and "max"/"min" raise [ValueError]; otherwise all
    three return a value, and "min" and "max" are values of the history
    bounding every sample. *)
Theorem history_metric_bounds (c : GPUController) (n : metric_name) :
  (dq_items (gpu_snapshot_queue c) = [] ->
     get_history_metric c n MAvg = Raise (exc ZeroDivisionError "division by zero") /\
     get_history_metric c n MMax = Raise (exc ValueError "max() iterable argument is empty") /\
     get_history_metric c n MMin = Raise (exc ValueError "min() iterable argument is empty")) /\
  (dq_items (gpu_snapshot_queue c) <> [] ->
     (exists avg, get_history_metric c n MAvg = Ok avg) /\
     exists lo hi,
       get_history_metric c n MMin = Ok lo /\ get_history_metric c n MMax = Ok hi /\
       In lo (map (snapshot_field n) (dq_items (gpu_snapshot_queue c))) /\
       In hi (map (snapshot_field n) (dq_items (gpu_snapshot_queue c))) /\
       forall s, In s (dq_items (gpu_snapshot_queue c)) ->
         lo <= snapshot_field n s /\ snapshot_field n s <= hi).
Proof.
  unfold get_history_metric.
  destruct (dq_items (gpu_snapshot_queue c)) as [|s0 rest] eqn:E.
  - split; [intros _; repeat split|intros H; congruence].
  - split; [intros H; discriminate|intros _].
    cbn [map py_min py_max List.length Nat.eqb].
    split; [eexists; reflexivity|].
    destruct (fold_min_spec (map (snapshot_field n) rest) (snapshot_field n s0)) as [Mn1 Mn2].
    destruct (fold_max_spec (map (snapshot_field n) rest) (snapshot_field n s0)) as [Mx1 Mx2].
    set (lo := fold_left (fun m y => if Qltb y m then y else m) _ _) in *.
    set (hi := fold_left (fun m y => if Qltb m y then y else m) _ _) in *.
    exists lo, hi.
    split; [reflexivity|]. split; [reflexivity|].
    split; [exact Mn2|split; [exact Mx2|]].
    intros s Hs.
    assert (Hin : In (snapshot_field n s) (map (snapshot_field n) (s0 :: rest)))
      by (apply in_map; exact Hs).
    split; [apply Mn1|apply Mx1]; exact Hin.
Qed.

Lemma history_metric_bounds_witness :
  (dq_items (gpu_snapshot_queue (new_controller cfg0 0)) = [] /\
   get_history_metric (new_controller cfg0 0) MUtil MAvg =
     Raise (exc ZeroDivisionError "division by zero") /\
   get_history_metric (new_controller cfg0 0) MUtil MMax =
     Raise (exc ValueError "max() iterable argument is empty") /\
   get_history_metric (new_controller cfg0 0) MUtil MMin =
     Raise (exc ValueError "min() iterable argument is empty")) /\
  (dq_items (gpu_snapshot_queue ctl_full) <> [] /\
   (exists avg, get_history_metric ctl_full MFreeMem MAvg = Ok avg) /\
   exists lo hi,
     get_history_metric ctl_full MFreeMem MMin = Ok lo /\
     get_history_metric ctl_full MFreeMem MMax = Ok hi /\
     In lo (map (snapshot_field MFreeMem) (dq_items (gpu_snapshot_queue ctl_full))) /\
     In hi (map (snapshot_field MFreeMem) (dq_items (gpu_snapshot_queue ctl_full))) /\
     forall s, In s (dq_items (gpu_snapshot_queue ctl_full)) ->
       lo <= snapshot_field MFreeMem s /\ snapshot_field MFreeMem s <= hi).
Proof.
  assert (H1 : dq_items (gpu_snapshot_queue (new_controller cfg0 0)) = []) by reflexivity.
  assert (H2 : dq_items (gpu_snapshot_queue ctl_full) <> []) by (vm_compute; discriminate).
  split; [split; [exact H1|exact (proj1 (history_metric_bounds (new_controller cfg0 0) MUtil) H1)]|].
  split; [exact H2|exact (proj2 (history_metric_bounds ctl_full MFreeMem) H2)].
Defined.

End HistoryFacts.


(* ------------------------------------------------------------------ *)
(** * Further properties of the hold loop *)

Module HoldFacts.
Import Core Controller Examples ControllerFacts.
Local Open Scope Q_scope.




(** Once the binary search has converged, the rest of a run of the hold
    loop only sleeps for the found midpoint: its state no longer changes,
    it never raises, and it stops at the first set [stop_signal]. *)
Theorem hold_converged_only_sleeps (alg : AlgorithmConfig) (gb u : Q) (st : HoldState)
    (inputs : list HoldInput) :
  hs_first st = false -> hs_find_target_sleep_time st = true ->
  exists k,
    hold_run alg gb u st inputs = HoldStopped st (repeat (EvSleep (hs_mid_sleep_time st)) k) \/
    hold_run alg gb u st inputs = HoldRunning st (repeat (EvSleep (hs_mid_sleep_time st)) k).
Proof.
  intros Ef Hf. induction inputs as [|i rest IH]; cbn [hold_run].
  - exists 0%nat. right. reflexivity.
  - destruct (in_stop i); [exists 0%nat; left; rewrite Ef; reflexivity|].
    assert (E : hold_iter alg gb u st i = Ok (st, [EvSleep (hs_mid_sleep_time st)])).
    { unfold hold_iter. rewrite Ef, Hf. reflexivity. }
    rewrite E. destruct IH as [k [R|R]]; rewrite R; exists (S k); [left|right]; reflexivity.
Qed.

Lemma hold_converged_only_sleeps_witness :
  (hs_first st_converged = false /\ hs_find_target_sleep_time st_converged = true) /\
  exists k,
    hold_run alg0 40 (8 # 10) st_converged [hold_in 1 1 0 0; hold_in 2 2 1 0] =
      HoldStopped st_converged (repeat (EvSleep (hs_mid_sleep_time st_converged)) k) \/
    hold_run alg0 40 (8 # 10) st_converged [hold_in 1 1 0 0; hold_in 2 2 1 0] =
      HoldRunning st_converged (repeat (EvSleep (hs_mid_sleep_time st_converged)) k).
Proof.
  assert (H1 : hs_first st_converged = false) by reflexivity.
  assert (H2 : hs_find_target_sleep_time st_converged = true) by reflexivity.
  split; [split; [exact H1|exact H2]|].
  exact (hold_converged_only_sleeps _ _ _ _ _ H1 H2).
Defined.

End HoldFacts.


(* ------------------------------------------------------------------ *)
(** * Further properties of the group manager and its listener *)

Module ServiceFacts.
Import Core Controller Manager Examples ManagerFacts HistoryFacts.






(** A STOP request on a served manager whose controllers thread exists
    succeeds and leaves no GPU held: every hold thread is stopped and the
    controllers loop is stopped. *)
Theorem stop_request_releases (m : Manager) (cfg : option ControllerConfig) :
  reachable m -> running_thread m = true ->
  exists m', dispatch STOP cfg m = DispatchOk m' true /\
    running_signal m' = false /\ running_thread m' = false /\
    (forall c, In c (controllers_of m') -> holding c = false /\ holding_executor c = false) /\
    address_exists m' = address_exists m /\ listener_open m' = listener_open m.
Proof.
  intros R Ht. assert (I := reachable_inv m R).
  destruct (stop_controllers m) as [m'| |] eqn:E.
  - destruct (stop_controllers_quiet m m' I E) as [A [B [C [_ [D F]]]]].
    exists m'. cbn [dispatch]. rewrite E. split; [reflexivity|]. auto.
  - unfold stop_controllers in E. rewrite Ht in E. discriminate.
  - unfold stop_controllers in E. rewrite Ht in E. discriminate.
Qed.

Lemma stop_request_releases_witness :
  (reachable mgr_holding /\ running_thread mgr_holding = true) /\
  exists m', dispatch STOP None mgr_holding = DispatchOk m' true /\
    running_signal m' = false /\ running_thread m' = false /\
    (forall c, In c (controllers_of m') -> holding c = false /\ holding_executor c = false) /\
    address_exists m' = address_exists mgr_holding /\ listener_open m' = listener_open mgr_holding.
Proof.
  assert (R0 : reachable mgr0) by (apply (reach_init cfg0 2); reflexivity).
  assert (R1 : reachable mgr_started).
  { apply (reach_conn mgr0 [send_socket_data (request START)] [Sent (send_socket_data reply_ok); ConnClosed]).
    - exact R0.
    - vm_compute. reflexivity. }
  assert (R : reachable mgr_holding) by exact (reachable_background idle_then_tick mgr_started R1).
  assert (Ht : running_thread mgr_holding = true) by (vm_compute; reflexivity).
  split; [split; [exact R|exact Ht]|].
  exact (stop_request_releases mgr_holding None R Ht).
Defined.

(** On every served manager a controller holds its GPU exactly when it has
    a hold thread, and only while the controllers thread exists, is alive
    and its [running_signal] is set. *)
Theorem holding_needs_running_loop (m : Manager) :
  reachable m ->
  forall c, In c (controllers_of m) ->
    holding c = holding_executor c /\
    (holding c = true ->
       running_signal m = true /\ running_thread m = true /\ loop_alive m = true).
Proof.
  intros R c Hc. destruct (reachable_inv m R) as [I0 [I1 [I2 _]]].
  split; [exact (I1 c Hc)|]. intros Hh.
  destruct (running_thread m) eqn:Et.
  - destruct (loop_alive m) eqn:El.
    + rewrite I0. repeat split.
    + rewrite (I2 (or_intror eq_refl) c Hc) in Hh. discriminate.
  - rewrite (I2 (or_introl eq_refl) c Hc) in Hh. discriminate.
Qed.

Lemma holding_needs_running_loop_witness :
  reachable mgr_holding /\
  forall c, In c (controllers_of mgr_holding) ->
    holding c = holding_executor c /\
    (holding c = true ->
       running_signal mgr_holding = true /\ running_thread mgr_holding = true /\
       loop_alive mgr_holding = true).
Proof.
  assert (R0 : reachable mgr0) by (apply (reach_init cfg0 2); reflexivity).
  assert (R1 : reachable mgr_started).
  { apply (reach_conn mgr0 [send_socket_data (request START)] [Sent (send_socket_data reply_ok); ConnClosed]).
    - exact R0.
    - vm_compute. reflexivity. }
  assert (R : reachable mgr_holding) by exact (reachable_background idle_then_tick mgr_started R1).
  split; [exact R|]. exact (holding_needs_running_loop mgr_holding R).
Defined.

(** A pass of the controllers loop over controllers with a history of
    positive capacity never raises: it starts holding on exactly the
    controllers that meet the start condition and leaves the others as
    they are. *)
Theorem tick_starts_eligible (cfg : ControllerConfig) (cs : list GPUController) :
  (forall c, In c cs -> holding c = holding_executor c /\ (0 < dq_maxlen (gpu_snapshot_queue c))%nat) ->
  tick_controllers cfg cs =
  (map (fun c => match validate_controller_start_condition cfg c with
                 | Ok true => set_holding c true
                 | _ => c
                 end) cs, None).
Proof.
  induction cs as [|c rest IH]; intros H; [reflexivity|].
  cbn [tick_controllers map].
  destruct (H c (or_introl eq_refl)) as [Hx Hn].
  rewrite IH by (intros c' Hc'; apply H; right; exact Hc').
  destruct (validate_cases cfg c) as [V|[[V [Hh _]]|[e [V Z]]]]; rewrite V.
  - reflexivity.
  - unfold start_holding. rewrite <- Hx, Hh. reflexivity.
  - lia.
Qed.

Lemma tick_starts_eligible_witness :
  (forall c, In c [ctl_full; ctl_holding] ->
     holding c = holding_executor c /\ (0 < dq_maxlen (gpu_snapshot_queue c))%nat) /\
  tick_controllers cfg0 [ctl_full; ctl_holding] =
  (map (fun c => match validate_controller_start_condition cfg0 c with
                 | Ok true => set_holding c true
                 | _ => c
                 end) [ctl_full; ctl_holding], None).
Proof.
  assert (H : forall c, In c [ctl_full; ctl_holding] ->
     holding c = holding_executor c /\ (0 < dq_maxlen (gpu_snapshot_queue c))%nat).
  { intros c [<-|[<-|[]]]; vm_compute; split; [reflexivity|lia| reflexivity|lia]. }
  split; [exact H|]. exact (tick_starts_eligible cfg0 _ H).
Defined.

(** The clean-up of the controllers loop never raises: it stops every
    hold thread, sets every [inspect_stop] (so later samples change no
    history), and keeps each controller's id and history. *)
Theorem loop_cleanup_releases_all (cs : list GPUController) :
  (forall c, In c cs -> holding c = holding_executor c) ->
  snd (loop_cleanup cs) = None /\
  map ctl_id (fst (loop_cleanup cs)) = map ctl_id cs /\
  map gpu_snapshot_queue (fst (loop_cleanup cs)) = map gpu_snapshot_queue cs /\
  forall c, In c (fst (loop_cleanup cs)) ->
    holding c = false /\ holding_executor c = false /\ inspect_stop_signal c = true /\
    forall samples, fold_left inspect_step samples c = c.
Proof.
  induction cs as [|c rest IH]; intros H.
  - cbn. split; [reflexivity|]. split; [reflexivity|]. split; [reflexivity|]. intros x Hx; destruct Hx.
  - destruct IH as [A [B [C D]]]; [intros c' Hc'; apply H; right; exact Hc'|].
    assert (Hx := H c (or_introl eq_refl)).
    assert (E : (if holding c then stop_holding c else Ok c) =
                Ok (set_holding c false) \/
                (if holding c then stop_holding c else Ok c) = Ok c /\
                holding c = false /\ holding_executor c = false).
    { destruct (holding c) eqn:Hh.
      - left. unfold stop_holding. rewrite <- Hx. reflexivity.
      - right. split; [reflexivity|]. split; [reflexivity|]. rewrite <- Hx. reflexivity. }
    cbn [loop_cleanup].
    destruct E as [E|[E [Hh Hx']]]; rewrite E;
      destruct (loop_cleanup rest) as [rest' e] eqn:L; cbn [fst snd map] in *;
      (split; [exact A|]); (split; [rewrite B; reflexivity|]); (split; [rewrite C; reflexivity|]);
      intros c' [<-|Hc']; try (apply D; exact Hc');
      (split; [cbn; try exact Hh; reflexivity|]); (split; [cbn; try exact Hx'; reflexivity|]);
      (split; [reflexivity|]); intros samples; apply inspect_stopped_fold; reflexivity.
Qed.

Lemma loop_cleanup_releases_all_witness :
  (forall c, In c [ctl_holding; ctl_full] -> holding c = holding_executor c) /\
  snd (loop_cleanup [ctl_holding; ctl_full]) = None /\
  map ctl_id (fst (loop_cleanup [ctl_holding; ctl_full])) = map ctl_id [ctl_holding; ctl_full] /\
  map gpu_snapshot_queue (fst (loop_cleanup [ctl_holding; ctl_full])) =
    map gpu_snapshot_queue [ctl_holding; ctl_full] /\
  forall c, In c (fst (loop_cleanup [ctl_holding; ctl_full])) ->
    holding c = false /\ holding_executor c = false /\ inspect_stop_signal c = true /\
    forall samples, fold_left inspect_step samples c = c.
Proof.
  assert (H : forall c, In c [ctl_holding; ctl_full] -> holding c = holding_executor c)
    by (intros c [<-|[<-|[]]]; reflexivity).
  split; [exact H|]. exact (loop_cleanup_releases_all _ H).
Defined.

(** [listen_signal] returns normally only after closing the listening
    socket and removing the socket file, the last two things it does. *)
Theorem listener_return_cleans_up (inputs : list ListenInput) (m m' : Manager) (run : bool)
    (tr : list ListenEvent) :
  listen_loop inputs m run = (tr, ListenReturned m') ->
  listener_open m' = false /\ address_exists m' = false /\
  exists tr0, tr = tr0 ++ [ListenerClosed; AddressRemoved].
Proof.
  revert m run tr; induction inputs as [|i rest IH]; intros m run tr H; cbn [listen_loop] in H.
  - destruct (negb (run && address_exists m)); [|discriminate].
    unfold listen_finish in H. destruct (address_exists m); [|discriminate].
    injection H as <- <-. split; [reflexivity|]. split; [reflexivity|]. exists []. reflexivity.
  - destruct (negb (run && address_exists m)).
    + unfold listen_finish in H. destruct (address_exists m); [|discriminate].
      injection H as <- <-. split; [reflexivity|]. split; [reflexivity|]. exists []. reflexivity.
    + destruct i as [|chunks|b]; [exact (IH _ _ _ H)|..|exact (IH _ _ _ H)].
      destruct (handle_conn chunks m) as [tr1 m1 run1|tr1 m1 e|m1]; [|discriminate|discriminate].
      destruct (listen_loop rest m1 run1) as [tr' o] eqn:L. injection H as <- ->.
      destruct (IH _ _ _ L) as [A [B [tr0 ->]]].
      split; [exact A|]. split; [exact B|]. exists (tr1 ++ tr0). rewrite app_assoc. reflexivity.
Qed.

Lemma listener_return_cleans_up_witness :
  listen_loop [InConn [send_socket_data (request SHUTDOWN)]] mgr0 true =
    ([Sent (send_socket_data reply_ok); ConnClosed; ListenerClosed; AddressRemoved],
     ListenReturned (with_socket mgr0 false false)) /\
  (listener_open (with_socket mgr0 false false) = false /\
   address_exists (with_socket mgr0 false false) = false /\
   exists tr0, [Sent (send_socket_data reply_ok); ConnClosed; ListenerClosed; AddressRemoved] =
               tr0 ++ [ListenerClosed; AddressRemoved]).
Proof.
  assert (H : listen_loop [InConn [send_socket_data (request SHUTDOWN)]] mgr0 true =
    ([Sent (send_socket_data reply_ok); ConnClosed; ListenerClosed; AddressRemoved],
     ListenReturned (with_socket mgr0 false false))) by (vm_compute; reflexivity).
  split; [exact H|]. exact (listener_return_cleans_up _ _ _ _ _ H).
Defined.

(** When the socket file is gone at the loop check, the listener serves no
    further request: it closes the socket and [os.remove] raises
    [FileNotFoundError] out of [listen_signal]. *)
Theorem socket_file_missing_raises (inputs : list ListenInput) (m : Manager) (run : bool) :
  address_exists m = false ->
  listen_loop inputs m run =
  ([ListenerClosed],
   ListenRaised (with_socket m false false) (exc FileNotFoundError "No such file or directory")).
Proof.
  intros Ha. destruct inputs; cbn [listen_loop]; rewrite Ha, andb_false_r; cbn;
    unfold listen_finish; rewrite Ha; reflexivity.
Qed.

Lemma socket_file_missing_raises_witness :
  address_exists (background BgAddressRemoved mgr0) = false /\
  listen_loop [InConn [send_socket_data (request GREETING)]] (background BgAddressRemoved mgr0) true =
  ([ListenerClosed],
   ListenRaised (with_socket (background BgAddressRemoved mgr0) false false)
     (exc FileNotFoundError "No such file or directory")).
Proof.
  assert (H : address_exists (background BgAddressRemoved mgr0) = false) by reflexivity.
  split; [exact H|]. exact (socket_file_missing_raises _ _ _ H).
Defined.

(** Each GREETING request (what [doma status] sends) is answered with a
    plain GREETING reply and leaves the manager exactly as it was; after
    any number of them the listener continues as if they had not come. *)
Theorem greetings_leave_manager_unchanged (k : nat) (m : Manager) (rest : list ListenInput) :
  address_exists m = true ->
  listen_signal (repeat (InConn [send_socket_data (request GREETING)]) k ++ rest) m =
  let (tr, o) := listen_signal rest m in
  (List.concat (repeat [Sent (send_socket_data reply_ok); ConnClosed] k) ++ tr, o).
Proof.
  intros Ha. unfold listen_signal. induction k as [|k IH]; cbn [repeat app].
  - destruct (listen_loop rest m true); reflexivity.
  - rewrite (listen_loop_conn _ _ m Ha).
    rewrite (handle_conn_ok _ (request GREETING) m m true (recv_request GREETING) eq_refl).
    rewrite IH. destruct (listen_loop rest m true). reflexivity.
Qed.

Lemma greetings_leave_manager_unchanged_witness :
  address_exists mgr_started = true /\
  listen_signal (repeat (InConn [send_socket_data (request GREETING)]) 3 ++ [InTimeout]) mgr_started =
  let (tr, o) := listen_signal [InTimeout] mgr_started in
  (List.concat (repeat [Sent (send_socket_data reply_ok); ConnClosed] 3) ++ tr, o).
Proof.
  assert (H : address_exists mgr_started = true) by (vm_compute; reflexivity).
  split; [exact H|]. exact (greetings_leave_manager_unchanged 3 mgr_started _ H).
Defined.

End ServiceFacts.


(* ------------------------------------------------------------------ *)
(** * The receiving side of the framing, [recv_socket_data] (core.py) *)

Module ClientFacts.
Import Core FramingFacts.



End ClientFacts.
